(** * SCOPEGREEN: the spreadsheet function of scopegreen.js

    A shallow embedding of [SCOPEGREEN] (src/scopegreen.js): parameter
    preparation, cache key, cache lookup, query string, response
    classification, row formatting and cache write, over a small model of
    the JavaScript values the function handles.

    Conventions of the model.
    - Strings are byte strings ([string]); text outside ASCII is its UTF-8
      encoding.
    - Numbers are exact decimals [m * 10^e]; binary64 rounding, overflow
      and the sign of zero are outside the model.  [NaN] and the
      infinities exist only as results of numeric conversions.  So
      [numMatches] is the exact integer [parseInt] reads: beyond 2^53,
      where JavaScript rounds it, and from 1e21 on, where it prints it
      with an exponent, the key and the query of the model are not those
      of the code.
    - The arguments are what a spreadsheet passes: texts, numbers,
      booleans, arrays of them (a range) or nothing; their conversion to
      text always returns.  The values of a response are any JSON: the
      conversion of an object that has a key [toString] of its own
      raises, and the function is modelled with that
      ([ToString_or_throw], [ToNumber_or_throw]).
    - The built-ins whose details do not matter to the function's logic
      ([JSON.parse], [JSON.stringify], [trim], [toLowerCase],
      [encodeURIComponent], [parseInt], string-to-number conversion, the
      text of engine errors) form the interface [Runtime]; the function is
      defined over any runtime, and a reference instance [reference_runtime] is
      given to run it on concrete inputs.
    - [Logger.log] and [console.log] only write to a log: they do nothing
      here, and are kept where their argument is computed from the
      response.
    - The services [CacheService] and [UrlFetchApp] are part of the
      [World] the function runs in; every call to them is recorded in the
      world's trace. *)

From Stdlib Require Import ZArith String Ascii List Bool Lia.
From stdpp Require Import base option list strings gmap pretty.

Local Open Scope Z_scope.
Set Warnings "-register-all".

(** ** JavaScript values *)

(** A finite number [mantissa * 10 ^ exponent]. *)
Record number := Dec { mantissa : Z; exponent : Z }.

(** The result of a numeric conversion. *)
Inductive xnumber :=
| NaN
| Infinity (negative : bool)
| Finite (n : number).

(** The values [JSON.parse] produces and a spreadsheet passes in.  An
    object keeps its properties in insertion order. *)
Inductive value :=
| VUndefined
| VNull
| VBool (b : bool)
| VNum (n : number)
| VStr (s : string)
| VArr (elems : list value)
| VObj (fields : list (string * value)).

Definition of_Z (z : Z) : number := Dec z 0.

(** [a ?= b] on the values [m * 10^e], after scaling to the smaller
    exponent. *)
Definition number_compare (a b : number) : comparison :=
  let e := Z.min (exponent a) (exponent b) in
  (mantissa a * 10 ^ (exponent a - e)) ?= (mantissa b * 10 ^ (exponent b - e)).

(** [a < b]; false when either side is NaN. *)
Definition x_lt (a b : xnumber) : bool :=
  match a, b with
  | NaN, _ | _, NaN => false
  | Infinity true, Infinity true => false
  | Infinity true, _ => true
  | _, Infinity true => false
  | Infinity false, _ => false
  | _, Infinity false => true
  | Finite x, Finite y =>
      match number_compare x y with Lt => true | _ => false end
  end.

(** [a <= b]; false when either side is NaN. *)
Definition x_le (a b : xnumber) : bool :=
  match a, b with
  | NaN, _ | _, NaN => false
  | _, _ => negb (x_lt b a)
  end.

(** [Math.min(a, b)]. *)
Definition Math_min (a b : xnumber) : xnumber :=
  match a, b with
  | NaN, _ | _, NaN => NaN
  | _, _ => if x_lt b a then b else a
  end.

(** The truth value of [v] in a condition. *)
Definition truthy (v : value) : bool :=
  match v with
  | VUndefined | VNull => false
  | VBool b => b
  | VNum n => negb (mantissa n =? 0)
  | VStr s => negb (String.eqb s "")
  | VArr _ | VObj _ => true
  end.

(** [a || b]. *)
Definition js_or (a b : value) : value := if truthy a then a else b.

(** [v === i] for an integer [i]. *)
Definition strict_eq_int (v : value) (i : Z) : bool :=
  match v with
  | VNum n => match number_compare n (of_Z i) with Eq => true | _ => false end
  | _ => false
  end.

(** [s.includes(needle)]. *)
Fixpoint includes (needle s : string) : bool :=
  String.prefix needle s ||
  match s with
  | EmptyString => false
  | String _ rest => includes needle rest
  end.

(** The text of an integer, and of what [parseInt] returns ([None] is
    NaN).  It is the text JavaScript prints for the integers a binary64
    holds exactly and prints in full, those below 2^53 in absolute value
    among them; larger ones are rounded by [parseInt], and from 1e21 on
    printed with an exponent, which the model leaves out. *)
Definition int_toString (n : option Z) : string :=
  match n with
  | None => "NaN"
  | Some z => pretty z
  end.

Definition bool_toString (b : bool) : string := if b then "true" else "false".

(** ** Exceptions *)

Inductive type_error :=
| ReadOfNullish (base : value) (prop : string)  (* null.prop, undefined.prop *)
| NotCallable (callee : string)                 (* callee(...) on a non-function *)
| NotAnObject (v : value)                       (* Object.keys(null) *)
| NotPrimitive.                                 (* String({toString: 1}) *)

Inductive exn :=
| SyntaxError (text : string)        (* JSON.parse(text) *)
| TypeError (e : type_error)
| HostError (description : string).  (* raised by a service *)

Inductive Res (A : Type) :=
| Ok (a : A)
| Throw (e : exn).
Arguments Ok {A} a.
Arguments Throw {A} e.

#[global] Instance Res_ret : MRet Res := λ A a, Ok a.
#[global] Instance Res_bind : MBind Res := λ A B f m,
  match m with
  | Ok a => f a
  | Throw e => Throw e
  end.

(** ** The runtime interface *)

Class Runtime := {
  (** [JSON.parse(text)]; [None] when it raises SyntaxError. *)
  JSON_parse : string → option value;
  JSON_stringify : value → string;
  (** [s.trim()], [s.toLowerCase()]. *)
  String_trim : string → string;
  String_toLowerCase : string → string;
  (** Total on UTF-8 text: it raises on a lone surrogate only. *)
  encodeURIComponent : string → string;
  (** [parseInt(s)]: an integer, or [None] for NaN. *)
  parseInt : string → option Z;
  (** The text of a number, and the number of a text. *)
  Number_toString : number → string;
  StringToNumber : string → xnumber;
  (** [e.toString()] of the errors the engine itself raises. *)
  SyntaxError_toString : string → string;
  TypeError_toString : type_error → string;
  (** The empty text is not JSON. *)
  JSON_parse_empty : JSON_parse "" = None
}.

Section Values.
Context `{Runtime}.

(** The text of [v]: what [v.toString()], string concatenation and
    template literals make of it when the conversion returns
    ([convertible] below). *)
Fixpoint ToString (v : value) : string :=
  match v with
  | VUndefined => "undefined"
  | VNull => "null"
  | VBool b => bool_toString b
  | VNum n => Number_toString n
  | VStr s => s
  | VArr elems =>
      String.concat ","
        ((fix each (l : list value) : list string :=
            match l with
            | [] => []
            | (VUndefined | VNull) :: rest => "" :: each rest
            | x :: rest => ToString x :: each rest
            end) elems)
  | VObj _ => "[object Object]"
  end.

(** The number of [v], when the conversion returns. *)
Definition ToNumber (v : value) : xnumber :=
  match v with
  | VUndefined => NaN
  | VNull => Finite (of_Z 0)
  | VBool b => Finite (of_Z (if b then 1 else 0))
  | VNum n => Finite n
  | VStr _ | VArr _ | VObj _ => StringToNumber (ToString v)
  end.

(** The object has a key [name] of its own. *)
Definition has_own (fields : list (string * value)) (name : string) : bool :=
  existsb (λ f, String.eqb f.1 name) fields.

(** Whether the conversion of [v] to a primitive returns.  For an object
    the engine calls its [valueOf] and [toString]; the inherited
    [toString] gives [[object Object]], but a key [toString] of the
    object itself hides it, and no value of a JSON text can be called: the
    conversion raises a TypeError.  For an array [toString] joins the
    texts of the elements, [null] as the empty text. *)
Fixpoint convertible (v : value) : bool :=
  match v with
  | VObj fields => negb (has_own fields "toString")
  | VArr elems =>
      (fix each (l : list value) : bool :=
         match l with
         | [] => true
         | x :: rest => convertible x && each rest
         end) elems
  | _ => true
  end.

(** [String(v)], [`${v}`] and ["..." + v] as computations that may
    raise. *)
Definition ToString_or_throw (v : value) : Res string :=
  if convertible v then Ok (ToString v) else Throw (TypeError NotPrimitive).

(** [Number(v)], as [>] and [Math.min] apply it. *)
Definition ToNumber_or_throw (v : value) : Res xnumber :=
  if convertible v then Ok (ToNumber v) else Throw (TypeError NotPrimitive).

(** [e.toString()]. *)
Definition exn_toString (e : exn) : string :=
  match e with
  | SyntaxError text => SyntaxError_toString text
  | TypeError te => TypeError_toString te
  | HostError description => description
  end.

(** The own property [name] of an object, [undefined] when absent. *)
Fixpoint own_property (fields : list (string * value)) (name : string) : value :=
  match fields with
  | [] => VUndefined
  | (k, v) :: rest => if String.eqb k name then v else own_property rest name
  end.

(** [base.name] for the property names the function reads.  None of them
    is inherited from a prototype, except [length] of strings and arrays
    (of a string, the number of bytes here; the function only asks whether
    it is positive and takes its minimum with [numMatches] before a turn
    that raises). *)
Definition read (base : value) (name : string) : Res value :=
  match base with
  | VUndefined | VNull => Throw (TypeError (ReadOfNullish base name))
  | VObj fields => Ok (own_property fields name)
  | VArr elems =>
      if String.eqb name "length"
      then Ok (VNum (of_Z (Z.of_nat (length elems)))) else Ok VUndefined
  | VStr s =>
      if String.eqb name "length"
      then Ok (VNum (of_Z (Z.of_nat (String.length s)))) else Ok VUndefined
  | VBool _ | VNum _ => Ok VUndefined
  end.

(** [Object.keys(v)]. *)
Definition Object_keys (v : value) : Res (list string) :=
  match v with
  | VUndefined | VNull => Throw (TypeError (NotAnObject v))
  | VObj fields => Ok (fields.*1)
  | VArr elems => Ok (pretty <$> seq 0 (length elems))
  | VStr s => Ok (pretty <$> seq 0 (String.length s))
  | VBool _ | VNum _ => Ok []
  end.

(** [JSON.parse(text)] as a computation that may raise. *)
Definition JSON_parse_or_throw (text : string) : Res value :=
  match JSON_parse text with
  | Some v => Ok v
  | None => Throw (SyntaxError text)
  end.

End Values.

(** ** The world: cache service and network *)

(** What [UrlFetchApp.fetch] does: with [muteHttpExceptions] every HTTP
    status comes back as a response; transport failures and timeouts are
    raised. *)
Inductive FetchOutcome :=
| Response (responseCode : Z) (responseText : string)
| FetchFails (description : string).

Inductive Event :=
| CacheGet (key : string)
| Fetch (url : string)
| CachePut (key text : string) (ttl : Z).

(** The user cache maps a key to its text and time to live; expiry is the
    cache service's business.  [cache.get] answers with the text or null,
    as its contract says; [put_fault] is the error [cache.put] raises, if
    it does. *)
Record World := {
  cache : gmap string (string * Z);
  network : string → FetchOutcome;
  put_fault : option string;
  trace : list Event
}.

Definition record (ev : Event) (w : World) : World :=
  {| cache := cache w; network := network w; put_fault := put_fault w;
     trace := trace w ++ [ev] |}.

Definition store (key text : string) (ttl : Z) (w : World) : World :=
  {| cache := <[key := (text, ttl)]> (cache w); network := network w;
     put_fault := put_fault w; trace := trace w |}.

(** Computations that read and change the world and may raise. *)
Definition M (A : Type) : Type := World → Res A * World.

#[global] Instance M_ret : MRet M := λ A a w, (Ok a, w).
#[global] Instance M_bind : MBind M := λ A B f m w,
  match m w with
  | (Ok a, w') => f a w'
  | (Throw e, w') => (Throw e, w')
  end.

Definition lift {A} (r : Res A) : M A := λ w, (r, w).

(** [try { body } catch (e) { handler e }]. *)
Definition try_catch {A} (body : M A) (handler : exn → M A) : M A := λ w,
  match body w with
  | (Ok a, w') => (Ok a, w')
  | (Throw e, w') => handler e w'
  end.

(** [cache.get(key)]: the stored text, or null. *)
Definition cache_get (key : string) : M (option string) := λ w,
  (Ok (fst <$> cache w !! key), record (CacheGet key) w).

(** [cache.put(key, text, ttl)]. *)
Definition cache_put (key text : string) (ttl : Z) : M () := λ w,
  let w' := record (CachePut key text ttl) w in
  match put_fault w with
  | Some description => (Throw (HostError description), w')
  | None => (Ok (), store key text ttl w')
  end.

(** [UrlFetchApp.fetch(url, options)] followed by [getResponseCode()] and
    [getContentText()]. *)
Definition UrlFetchApp_fetch (url : string) : M (Z * string) := λ w,
  let w' := record (Fetch url) w in
  match network w url with
  | Response responseCode responseText => (Ok (responseCode, responseText), w')
  | FetchFails description => (Throw (HostError description), w')
  end.

Definition Logger_log (message : string) : M () := mret ().

(** ** Parameters *)

(** The nine arguments as the spreadsheet passes them. *)
Record RawArgs := {
  raw_itemName : value;
  raw_year : value;
  raw_geography : value;
  raw_metric : value;
  raw_domain : value;
  raw_numMatches : value;
  raw_mode : value;
  raw_notEnglish : value;
  raw_unit : value
}.

(** The nine parameters after preparation (lines 30-38).  [numMatches] is
    what [parseInt] returns: an integer, or [None] for NaN. *)
Record QueryParameters := {
  itemName : string;
  year : string;
  geography : string;
  metric : string;
  domain : string;
  numMatches : option Z;
  mode : string;
  notEnglish : bool;
  unit_ : string
}.

(** Which return statement ended the call. *)
Inductive Outcome :=
| CacheHit          (* line 49 *)
| RateLimited       (* lines 104, 108 *)
| Malformed         (* line 120 *)
| ApiError          (* line 125 *)
| NoMatch           (* line 131 *)
| Success           (* line 185 *)
| UnexpectedShape   (* lines 193, 197 *)
| Timeout           (* line 201 *)
| GenericFailure.   (* line 205 *)

Definition nonempty (s : string) : bool := negb (String.eqb s "").

(** [numMatches] as the number it is. *)
Definition int_number (n : option Z) : xnumber :=
  match n with
  | None => NaN
  | Some z => Finite (of_Z z)
  end.

(** [[cell]]: a table of one row of one cell. *)
Definition single (cell : value) : value := VArr [VArr [cell]].

Definition API_BASE_URL : string :=
  "https://scopegreen-main-1a948ab.d2.zuplo.dev/api/metrics/search".

Definition rate_limit_generic : string := "Rate limit exceeded: Please try again later.".
Definition timed_out : string := "Error: API request timed out. Try simplifying your query.".

(** ** The function *)

Section Program.
Context `{Runtime}.

(** [v ? v.toString().trim() : fallback] *)
Definition prepared (v : value) (fallback : string) : string :=
  if truthy v then String_trim (ToString v) else fallback.

(** Lines 30-38: basic preparation of parameters, no validation. *)
Definition normalize (a : RawArgs) : QueryParameters :=
  {| itemName := prepared (raw_itemName a) "";
     year := prepared (raw_year a) "";
     geography := prepared (raw_geography a) "";
     metric := prepared (raw_metric a) "Carbon footprint";
     domain := prepared (raw_domain a) "";
     numMatches :=
       if truthy (raw_numMatches a)
       then parseInt (ToString (raw_numMatches a)) else Some 1;
     mode :=
       if truthy (raw_mode a)
       then String_toLowerCase (String_trim (ToString (raw_mode a))) else "lite";
     notEnglish :=
       match raw_notEnglish a with
       | VBool true => true
       | VStr s => String.eqb s "true"
       | _ => false
       end;
     unit_ := prepared (raw_unit a) "" |}.

(** Line 41. *)
Definition cacheKey (p : QueryParameters) : string :=
  "LCA_" +:+ itemName p +:+ "_" +:+ year p +:+ "_" +:+ geography p +:+ "_" +:+
  metric p +:+ "_" +:+ domain p +:+ "_" +:+ int_toString (numMatches p) +:+ "_" +:+
  mode p +:+ "_" +:+ bool_toString (notEnglish p) +:+ "_" +:+ unit_ p.

(** [if (s) queryParams += `&name=${encodeURIComponent(s)}`] *)
Definition optional (name s : string) : list (string * string) :=
  if nonempty s then [(name, encodeURIComponent s)] else [].

(** Lines 61-72: the query parameters in the order they are appended, each
    with its encoded value. *)
Definition queryFields (p : QueryParameters) : list (string * string) :=
  [("item_name", encodeURIComponent (itemName p))]
  ++ optional "year" (year p)
  ++ optional "geography" (geography p)
  ++ optional "metric" (metric p)
  ++ optional "mode" (mode p)
  ++ [("web_mode", "false")]
  ++ match numMatches p with
     | Some z =>
         if z =? 0 then []
         else [("num_matches", encodeURIComponent (int_toString (Some z)))]
     | None => []
     end
  ++ optional "domain" (domain p)
  ++ [("not_english", encodeURIComponent (bool_toString (notEnglish p)))]
  ++ optional "unit" (unit_ p).

(** The query string: [name=value] joined by [&]. *)
Definition queryParams (p : QueryParameters) : string :=
  String.concat "&" ((λ f, f.1 +:+ "=" +:+ f.2) <$> queryFields p).

(** Line 75. *)
Definition fullUrl (p : QueryParameters) : string :=
  API_BASE_URL +:+ "?" +:+ queryParams p.

(** [matches.find(m => m.rank === i)] on the elements of an array. *)
Fixpoint find_rank (elems : list value) (i : Z) : Res value :=
  match elems with
  | [] => Ok VUndefined
  | m :: rest =>
      rank ← read m "rank";
      if strict_eq_int rank i then Ok m else find_rank rest i
  end.

(** [data.matches.find(m => m.rank === i)]: only an array has [find]. *)
Definition matches_find (matches : value) (i : Z) : Res value :=
  match matches with
  | VArr elems => find_rank elems i
  | _ => Throw (TypeError (NotCallable "data.matches.find"))
  end.

(** Lines 144-167: the eight cells of one match.  The name is converted
    to text at line 144, before [metric] is read. *)
Definition match_cells (i : Z) (match_ : value) : Res (list value) :=
  matched_name ← read match_ "matched_name";
  name ← ToString_or_throw matched_name;
  metric1 ← read match_ "metric";
  value_ ← read metric1 "value";
  metric2 ← read match_ "metric";
  unit ← read metric2 "unit";
  year ← read match_ "year";
  geography ← read match_ "geography";
  source ← read match_ "source";
  source_link ← read match_ "source_link";
  conversion_info ← read match_ "conversion_info";
  Ok [ VStr ("Match " +:+ pretty i +:+ ": " +:+ name);
       value_;
       unit;
       js_or year (VStr "");
       js_or geography (VStr "");
       js_or source (VStr "");
       js_or source_link (VStr "");
       js_or conversion_info (VStr "") ].

(** Lines 140-168: one turn of the loop, for rank [i]. *)
Definition loop_body (matches : value) (i : Z) (result : list value) : Res (list value) :=
  match_ ← matches_find matches i;
  if truthy match_ then
    cells ← match_cells i match_;
    Ok (result ++ cells)
  else Ok result.

(** The loop from [i] on, over at most [turns] turns:
    [for (; i <= bound; i++) body]. *)
Fixpoint loop_from (turns : nat) (bound : xnumber) (matches : value) (i : Z)
    (result : list value) : Res (list value) :=
  match turns with
  | O => Ok result
  | S turns' =>
      if x_le (Finite (of_Z i)) bound then
        result' ← loop_body matches i result;
        loop_from turns' bound matches (i + 1) result'
      else Ok result
  end.

(** The number of elements of an array, 0 for anything else. *)
Definition elements (v : value) : nat :=
  match v with
  | VArr elems => length elems
  | _ => 0%nat
  end.

(** Lines 139-169.  The bound is at most the length of the array, so the
    loop ends within that many turns; on anything but an array the first
    turn raises.  One turn more than the elements is enough in both cases
    ([loop_from_enough] below). *)
Definition format_matches (n : option Z) (matches : value) : Res (list value) :=
  length_ ← read matches "length";
  length_number ← ToNumber_or_throw length_;
  loop_from (S (elements matches)) (Math_min (int_number n) length_number)
    matches 1 [].

(** Lines 101-109, under [responseCode === 429]: [Some] is a return,
    [None] falls through. *)
Definition rate_limit_block (responseText : string) : M (option (Outcome * value)) :=
  try_catch
    (errorData ← lift (JSON_parse_or_throw responseText);
     error ← lift (read errorData "error");
     if truthy error then
       message ← lift (read error "message");
       if truthy message then
         text ← lift (ToString_or_throw message);
         mret (Some (RateLimited,
                     single (VStr ("Rate limit exceeded: " +:+ text))))
       else mret None
     else mret None)
    (λ parseErr, mret (Some (RateLimited, single (VStr rate_limit_generic)))).

(** Lines 114-121: [Some data], or [None] for the return in the catch. *)
Definition parse_block (responseText : string) : M (option value) :=
  try_catch
    (data ← lift (JSON_parse_or_throw responseText);
     keys ← lift (Object_keys data);
     _ ← Logger_log ("Parsed data keys: " +:+ String.concat ", " keys);
     mret (Some data))
    (λ parseErr, mret None).

(** Lines 135-186, once [data.matches && data.matches.length > 0] holds. *)
Definition success_block (p : QueryParameters) (key : string) (data matches : value)
    : M (Outcome * value) :=
  result ← lift (format_matches (numMatches p) matches);
  explanation ← lift (read data "explanation");
  let result := result ++ [if truthy explanation then explanation else VStr ""] in
  _ ← try_catch (cache_put key (JSON_stringify (VArr [VArr result])) 120)
                (λ cacheErr, mret ());
  mret (Success, VArr [VArr result]).

(** Lines 129-130: [message] is a string that says no match was found. *)
Definition no_match_message (message : value) : bool :=
  match message with
  | VStr s => truthy message && includes "No good match was found" s
  | _ => false
  end.

(** Lines 124-197: the parsed body. *)
Definition classify (p : QueryParameters) (key responseText : string) (data : value)
    : M (Outcome * value) :=
  error ← lift (read data "error");
  if truthy error then
    code ← lift (read error "code");
    code_text ← lift (ToString_or_throw code);
    message ← lift (read error "message");
    message_text ← lift (ToString_or_throw message);
    mret (ApiError, single (VStr (code_text +:+ ": " +:+ message_text)))
  else
    message ← lift (read data "message");
    if no_match_message message then mret (NoMatch, single message)
    else
      matches ← lift (read data "matches");
      some ← (if truthy matches then
                length_ ← lift (read matches "length");
                length_number ← lift (ToNumber_or_throw length_);
                mret (x_lt (Finite (of_Z 0)) length_number)
              else mret false);
      if (some : bool) then success_block p key data matches
      else
        _ ← Logger_log ("Unexpected response structure: " +:+ JSON_stringify data);
        message ← lift (read data "message");
        if truthy message then
          text ← lift (ToString_or_throw message);
          mret (UnexpectedShape, single (VStr ("Message from API: " +:+ text)))
        else mret (UnexpectedShape, single (VStr responseText)).

(** Lines 98-197: what follows the fetch. *)
Definition respond (p : QueryParameters) (key : string) (responseCode : Z)
    (responseText : string) : M (Outcome * value) :=
  returned ← (if responseCode =? 429 then rate_limit_block responseText else mret None);
  match returned with
  | Some r => mret r
  | None =>
      parsed ← parse_block responseText;
      match parsed with
      | None => mret (Malformed, single (VStr responseText))
      | Some data => classify p key responseText data
      end
  end.

(** Lines 89-197: the body of the outer [try]. *)
Definition try_block (p : QueryParameters) (key : string) : M (Outcome * value) :=
  response ← UrlFetchApp_fetch (fullUrl p);
  respond p key response.1 response.2.

(** Lines 198-206: the outer [catch]. *)
Definition catch_block (error : exn) : M (Outcome * value) :=
  if includes "timeout" (exn_toString error)
     || includes "execution time" (exn_toString error)
  then mret (Timeout, single (VStr timed_out))
  else mret (GenericFailure, single (VStr ("Error: " +:+ exn_toString error))).

(** Lines 45-54: [Some v] is the return of the parsed cache entry. *)
Definition cache_lookup (key : string) : M (option value) :=
  cachedResult ← cache_get key;
  match cachedResult with
  | Some text =>
      if nonempty text then
        try_catch (v ← lift (JSON_parse_or_throw text); mret (Some v))
                  (λ e, mret None)
      else mret None
  | None => mret None
  end.

(** The function, with the return statement taken. *)
Definition SCOPEGREEN_run (a : RawArgs) : M (Outcome * value) :=
  let p := normalize a in
  let key := cacheKey p in
  hit ← cache_lookup key;
  match hit with
  | Some v => mret (CacheHit, v)
  | None => try_catch (try_block p key) catch_block
  end.

(** What the function returns in world [w]: a value, or an exception
    passed on to the caller. *)
Definition SCOPEGREEN (a : RawArgs) (w : World) : Res value :=
  match (SCOPEGREEN_run a w).1 with
  | Ok (_, v) => Ok v
  | Throw e => Throw e
  end.

End Program.

(** ** A reference runtime

    The built-ins on byte strings, by the rules of ECMA-262 and ECMA-404
    for ASCII text: white space and letter case are the ASCII ones. *)

Module Reference.

Definition code (c : ascii) : Z := Z.of_N (N_of_ascii c).
Definition chr (z : Z) : ascii := ascii_of_N (Z.to_N z).
Definition char (z : Z) : string := String (chr z) "".

Definition is_digit (c : ascii) : bool := (48 <=? code c) && (code c <=? 57).

(** The value of a digit in base 16 or less. *)
Definition digit_value (c : ascii) : option Z :=
  let z := code c in
  if (48 <=? z) && (z <=? 57) then Some (z - 48)
  else if (97 <=? z) && (z <=? 102) then Some (z - 87)
  else if (65 <=? z) && (z <=? 70) then Some (z - 55)
  else None.

(** The longest prefix of digits of [radix]: its value, its length and
    what follows. *)
Fixpoint digits (radix : Z) (s : string) (acc count : Z) : Z * Z * string :=
  match s with
  | String c rest =>
      match digit_value c with
      | Some d =>
          if d <? radix then digits radix rest (acc * radix + d) (count + 1)
          else (acc, count, s)
      | None => (acc, count, s)
      end
  | EmptyString => (acc, count, s)
  end.

(** [s] without the prefix [pre]. *)
Fixpoint strip_prefix (pre s : string) : option string :=
  match pre, s with
  | EmptyString, _ => Some s
  | String a pre', String b s' =>
      if Ascii.eqb a b then strip_prefix pre' s' else None
  | _, EmptyString => None
  end.

(** *** JSON.parse *)

Definition json_space (c : ascii) : bool :=
  match code c with
  | 32 | 9 | 10 | 13 => true
  | _ => false
  end.

Fixpoint skip_ws (s : string) : string :=
  match s with
  | String c rest => if json_space c then skip_ws rest else s
  | EmptyString => s
  end.

(** An optional exponent part [e|E [+|-] digits]. *)
Definition exponent_part (s : string) : option (Z * string) :=
  match s with
  | String c rest =>
      if (code c =? 101) || (code c =? 69) then
        let '(negative, rest) :=
          match rest with
          | String sign rest' =>
              if code sign =? 45 then (true, rest')
              else if code sign =? 43 then (false, rest')
              else (false, rest)
          | EmptyString => (false, rest)
          end in
        let '(e, count, rest) := digits 10 rest 0 0 in
        if count =? 0 then None
        else Some (if negative then - e else e, rest)
      else Some (0, s)
  | EmptyString => Some (0, s)
  end.

(** A number: an optional minus, an integer part without leading zero,
    an optional fraction and an optional exponent. *)
Definition parse_number (s : string) : option (number * string) :=
  let '(negative, s) :=
    match s with
    | String c rest => if code c =? 45 then (true, rest) else (false, s)
    | EmptyString => (false, s)
    end in
  match s with
  | String c rest =>
      if is_digit c then
        let '(int, _, s) :=
          if code c =? 48 then (0, 1, rest) else digits 10 s 0 0 in
        '(m, places, s) ←
          match s with
          | String dot rest =>
              if code dot =? 46 then
                let '(m, count, rest) := digits 10 rest int 0 in
                if count =? 0 then None else Some (m, count, rest)
              else Some (int, 0, s)
          | EmptyString => Some (int, 0, s)
          end;
        '(e, s) ← exponent_part s;
        Some (Dec (if negative then - m else m) (e - places), s)
      else None
  | EmptyString => None
  end.

(** The pieces of a string literal: a byte as it stands, or the code unit
    of a [\u] escape. *)
Inductive piece :=
| Byte (c : ascii)
| CodeUnit (u : Z).

Definition hex4 (a b c d : ascii) : option Z :=
  x ← digit_value a; y ← digit_value b; z ← digit_value c; t ← digit_value d;
  Some (((x * 16 + y) * 16 + z) * 16 + t).

(** The body of a string literal, after the opening quote. *)
Fixpoint string_pieces (s : string) (acc : list piece) : option (list piece * string) :=
  match s with
  | EmptyString => None
  | String c rest =>
      if code c =? 34 then Some (rev acc, rest)
      else if code c =? 92 then
        match rest with
        | String e rest' =>
            match code e with
            | 34 | 92 | 47 => string_pieces rest' (Byte e :: acc)
            | 98 => string_pieces rest' (Byte (chr 8) :: acc)
            | 102 => string_pieces rest' (Byte (chr 12) :: acc)
            | 110 => string_pieces rest' (Byte (chr 10) :: acc)
            | 114 => string_pieces rest' (Byte (chr 13) :: acc)
            | 116 => string_pieces rest' (Byte (chr 9) :: acc)
            | 117 =>
                match rest' with
                | String h1 (String h2 (String h3 (String h4 rest''))) =>
                    match hex4 h1 h2 h3 h4 with
                    | Some u => string_pieces rest'' (CodeUnit u :: acc)
                    | None => None
                    end
                | _ => None
                end
            | _ => None
            end
        | EmptyString => None
        end
      else if code c <? 32 then None
      else string_pieces rest (Byte c :: acc)
  end.

(** The UTF-8 bytes of a code point. *)
Definition utf8 (cp : Z) : string :=
  if cp <? 128 then char cp
  else if cp <? 2048 then char (192 + cp / 64) +:+ char (128 + cp mod 64)
  else if cp <? 65536 then
    char (224 + cp / 4096) +:+ char (128 + (cp / 64) mod 64) +:+ char (128 + cp mod 64)
  else
    char (240 + cp / 262144) +:+ char (128 + (cp / 4096) mod 64) +:+
    char (128 + (cp / 64) mod 64) +:+ char (128 + cp mod 64).

Definition high_surrogate (u : Z) : bool := (55296 <=? u) && (u <=? 56319).
Definition low_surrogate (u : Z) : bool := (56320 <=? u) && (u <=? 57343).

Definition flush (pending : option Z) : string :=
  match pending with
  | Some u => utf8 u
  | None => ""
  end.

(** The bytes of the pieces; a high surrogate waits in [pending] for its
    low one. *)
Fixpoint pieces_text (pending : option Z) (l : list piece) : string :=
  match l with
  | [] => flush pending
  | Byte c :: rest => flush pending +:+ String c (pieces_text None rest)
  | CodeUnit u :: rest =>
      match pending with
      | Some hi =>
          if low_surrogate u
          then utf8 (65536 + (hi - 55296) * 1024 + (u - 56320)) +:+ pieces_text None rest
          else utf8 hi +:+
               (if high_surrogate u then pieces_text (Some u) rest
                else utf8 u +:+ pieces_text None rest)
      | None =>
          if high_surrogate u then pieces_text (Some u) rest
          else utf8 u +:+ pieces_text None rest
      end
  end.

Definition parse_string (s : string) : option (string * string) :=
  '(pieces, rest) ← string_pieces s [];
  Some (pieces_text None pieces, rest).

(** [fields] with [key] set to [v]: a repeated key keeps its place and
    takes the last value. *)
Fixpoint set_field (key : string) (v : value) (fields : list (string * value))
    : list (string * value) :=
  match fields with
  | [] => [(key, v)]
  | (k, x) :: rest =>
      if String.eqb k key then (k, v) :: rest else (k, x) :: set_field key v rest
  end.

(** A value and what follows it.  [fuel] bounds the nesting depth and the
    number of elements; the length of the text is enough. *)
Fixpoint parse_value (fuel : nat) (s : string) : option (value * string) :=
  match fuel with
  | O => None
  | S fuel' =>
      match skip_ws s with
      | EmptyString => None
      | String c rest as s' =>
          match code c with
          | 110 => rest' ← strip_prefix "ull" rest; Some (VNull, rest')
          | 116 => rest' ← strip_prefix "rue" rest; Some (VBool true, rest')
          | 102 => rest' ← strip_prefix "alse" rest; Some (VBool false, rest')
          | 34 => '(str, rest') ← parse_string rest; Some (VStr str, rest')
          | 91 =>
              match skip_ws rest with
              | String c2 rest2 as inner =>
                  if code c2 =? 93 then Some (VArr [], rest2)
                  else
                    (fix elements (n : nat) (s : string) (acc : list value) {struct n}
                       : option (value * string) :=
                       match n with
                       | O => None
                       | S n' =>
                           '(v, r) ← parse_value fuel' s;
                           match skip_ws r with
                           | String sep r' =>
                               if code sep =? 44 then elements n' r' (v :: acc)
                               else if code sep =? 93
                               then Some (VArr (rev (v :: acc)), r')
                               else None
                           | EmptyString => None
                           end
                       end) fuel' inner []
              | EmptyString => None
              end
          | 123 =>
              match skip_ws rest with
              | String c2 rest2 as inner =>
                  if code c2 =? 125 then Some (VObj [], rest2)
                  else
                    (fix members (n : nat) (s : string) (acc : list (string * value))
                       {struct n} : option (value * string) :=
                       match n with
                       | O => None
                       | S n' =>
                           match skip_ws s with
                           | String q r =>
                               if code q =? 34 then
                                 '(key, r1) ← parse_string r;
                                 match skip_ws r1 with
                                 | String colon r2 =>
                                     if code colon =? 58 then
                                       '(v, r3) ← parse_value fuel' r2;
                                       match skip_ws r3 with
                                       | String sep r4 =>
                                           if code sep =? 44
                                           then members n' r4 (set_field key v acc)
                                           else if code sep =? 125
                                           then Some (VObj (set_field key v acc), r4)
                                           else None
                                       | EmptyString => None
                                       end
                                     else None
                                 | EmptyString => None
                                 end
                               else None
                           | EmptyString => None
                           end
                       end) fuel' inner []
              | EmptyString => None
              end
          | _ => '(n, rest') ← parse_number s'; Some (VNum n, rest')
          end
      end
  end.

Definition JSON_parse (text : string) : option value :=
  '(v, rest) ← parse_value (S (String.length text)) text;
  match skip_ws rest with
  | EmptyString => Some v
  | String _ _ => None
  end.

(** *** Numbers and text *)

Fixpoint zeros (n : nat) : string :=
  match n with
  | O => ""
  | S n' => String (chr 48) (zeros n')
  end.

(** [m * 10^e] with the trailing zeros of [m] moved into the exponent. *)
Fixpoint strip_zeros (fuel : nat) (m e : Z) : Z * Z :=
  match fuel with
  | O => (m, e)
  | S fuel' => if m mod 10 =? 0 then strip_zeros fuel' (m / 10) (e + 1) else (m, e)
  end.

(** [Number.prototype.toString()], ECMA-262 6.1.6.1.20, on the digits of
    the exact decimal. *)
Definition Number_toString (x : number) : string :=
  let m := mantissa x in
  if m =? 0 then "0"
  else
    let '(a, e) := strip_zeros (Z.to_nat (Z.log2 (Z.abs m))) (Z.abs m) (exponent x) in
    let s := pretty a in
    let k := Z.of_nat (String.length s) in
    let n := k + e in
    (if m <? 0 then "-" else "") +:+
    (if (k <=? n) && (n <=? 21) then s +:+ zeros (Z.to_nat (n - k))
     else if (0 <? n) && (n <=? 21) then
       substring 0 (Z.to_nat n) s +:+ "." +:+ substring (Z.to_nat n) (Z.to_nat (k - n)) s
     else if (-6 <? n) && (n <=? 0) then "0." +:+ zeros (Z.to_nat (- n)) +:+ s
     else
       let tail := "e" +:+ (if n - 1 <? 0 then "-" else "+") +:+ pretty (Z.abs (n - 1)) in
       if k =? 1 then s +:+ tail
       else substring 0 1 s +:+ "." +:+ substring 1 (Z.to_nat (k - 1)) s +:+ tail).

Definition is_space (c : ascii) : bool :=
  match code c with
  | 9 | 10 | 11 | 12 | 13 | 32 => true
  | _ => false
  end.

Fixpoint trim_start (s : string) : string :=
  match s with
  | String c rest => if is_space c then trim_start rest else s
  | EmptyString => s
  end.

Definition String_trim (s : string) : string :=
  String.rev (trim_start (String.rev (trim_start s))).

Fixpoint String_toLowerCase (s : string) : string :=
  match s with
  | EmptyString => EmptyString
  | String c rest =>
      String (if (65 <=? code c) && (code c <=? 90) then chr (code c + 32) else c)
             (String_toLowerCase rest)
  end.

Definition hex_digit (z : Z) : ascii :=
  if z <? 10 then chr (48 + z) else chr (55 + z).

(** The characters [encodeURIComponent] leaves as they are:
    letters, digits and [- _ . ! ~ * ' ( )]. *)
Definition unreserved (c : ascii) : bool :=
  let z := code c in
  ((48 <=? z) && (z <=? 57)) || ((65 <=? z) && (z <=? 90)) || ((97 <=? z) && (z <=? 122))
  || match z with
     | 45 | 95 | 46 | 33 | 126 | 42 | 39 | 40 | 41 => true
     | _ => false
     end.

Fixpoint encodeURIComponent (s : string) : string :=
  match s with
  | EmptyString => EmptyString
  | String c rest =>
      if unreserved c then String c (encodeURIComponent rest)
      else String (chr 37) (String (hex_digit (code c / 16))
             (String (hex_digit (code c mod 16)) (encodeURIComponent rest)))
  end.

(** A leading sign and what follows it. *)
Definition sign_part (s : string) : bool * string :=
  match s with
  | String c rest =>
      if code c =? 45 then (true, rest)
      else if code c =? 43 then (false, rest)
      else (false, s)
  | EmptyString => (false, s)
  end.

(** A prefix [0x], [0X] and the like: zero, then [letter] in either
    case. *)
Definition radix_prefix (letter : Z) (s : string) : option string :=
  match s with
  | String z (String x rest) =>
      if (code z =? 48) && ((code x =? letter) || (code x =? letter - 32))
      then Some rest else None
  | _ => None
  end.

(** [parseInt(s)], ECMA-262 19.2.5, without a radix argument. *)
Definition parseInt (s : string) : option Z :=
  let '(negative, s) := sign_part (trim_start s) in
  let '(radix, s) :=
    match radix_prefix 120 s with
    | Some rest => (16, rest)
    | None => (10, s)
    end in
  let '(n, count, _) := digits radix s 0 0 in
  if count =? 0 then None else Some (if negative then - n else n).

(** All of [s] as digits of [radix]. *)
Definition all_digits (radix : Z) (s : string) : xnumber :=
  match digits radix s 0 0 with
  | (n, count, EmptyString) => if count =? 0 then NaN else Finite (of_Z n)
  | _ => NaN
  end.

(** A decimal literal without sign: digits with an optional fraction, or
    a fraction alone, and an optional exponent. *)
Definition decimal_literal (s : string) : option number :=
  let '(int, int_count, s) := digits 10 s 0 0 in
  let '(m, places, s) :=
    match s with
    | String dot rest =>
        if code dot =? 46 then digits 10 rest int 0 else (int, 0, s)
    | EmptyString => (int, 0, s)
    end in
  if (int_count =? 0) && (places =? 0) then None
  else
    match exponent_part s with
    | Some (e, EmptyString) => Some (Dec m (e - places))
    | _ => None
    end.

(** [Number(s)] for a string, ECMA-262 7.1.4.1.1. *)
Definition StringToNumber (s : string) : xnumber :=
  let s := String_trim s in
  if String.eqb s "" then Finite (of_Z 0)
  else
    match radix_prefix 120 s, radix_prefix 111 s, radix_prefix 98 s with
    | Some rest, _, _ => all_digits 16 rest
    | _, Some rest, _ => all_digits 8 rest
    | _, _, Some rest => all_digits 2 rest
    | None, None, None =>
        let '(negative, s) := sign_part s in
        if String.eqb s "Infinity" then Infinity negative
        else
          match decimal_literal s with
          | Some x => Finite (if negative then Dec (- mantissa x) (exponent x) else x)
          | None => NaN
          end
    end.

(** *** JSON.stringify *)

Fixpoint escaped (s : string) : string :=
  match s with
  | EmptyString => EmptyString
  | String c rest =>
      match code c with
      | 34 | 92 => String (chr 92) (String c (escaped rest))
      | 8 => "\b" +:+ escaped rest
      | 12 => "\f" +:+ escaped rest
      | 10 => "\n" +:+ escaped rest
      | 13 => "\r" +:+ escaped rest
      | 9 => "\t" +:+ escaped rest
      | z =>
          if z <? 32 then
            "\u00" +:+ char (48 + z / 16) +:+
            String (if z mod 16 <? 10 then chr (48 + z mod 16) else chr (87 + z mod 16))
                   (escaped rest)
          else String c (escaped rest)
      end
  end.

Definition quoted (s : string) : string := char 34 +:+ escaped s +:+ char 34.

(** The JSON text of [v]; [None] where [JSON.stringify] gives
    undefined. *)
Fixpoint stringify (v : value) : option string :=
  match v with
  | VUndefined => None
  | VNull => Some "null"
  | VBool b => Some (bool_toString b)
  | VNum n => Some (Number_toString n)
  | VStr s => Some (quoted s)
  | VArr elems =>
      Some ("[" +:+
            String.concat ","
              ((fix each (l : list value) : list string :=
                  match l with
                  | [] => []
                  | x :: rest => default "null" (stringify x) :: each rest
                  end) elems) +:+ "]")
  | VObj fields =>
      Some ("{" +:+
            String.concat ","
              ((fix each (l : list (string * value)) : list string :=
                  match l with
                  | [] => []
                  | (k, x) :: rest =>
                      match stringify x with
                      | Some text => (quoted k +:+ ":" +:+ text) :: each rest
                      | None => each rest
                      end
                  end) fields) +:+ "}")
  end.

(** As a string: the text of undefined is what concatenation makes of it. *)
Definition JSON_stringify (v : value) : string := default "undefined" (stringify v).

(** *** Error texts, as V8 words them *)

(** The text of a SyntaxError varies with the engine and the input; the
    function catches every one of them without looking at it. *)
Definition SyntaxError_toString (text : string) : string :=
  "SyntaxError: Unexpected token in JSON".

Definition TypeError_toString (e : type_error) : string :=
  match e with
  | ReadOfNullish base prop =>
      "TypeError: Cannot read properties of " +:+
      match base with VNull => "null" | _ => "undefined" end +:+
      " (reading '" +:+ prop +:+ "')"
  | NotCallable callee => "TypeError: " +:+ callee +:+ " is not a function"
  | NotAnObject _ => "TypeError: Cannot convert undefined or null to object"
  | NotPrimitive => "TypeError: Cannot convert object to primitive value"
  end.

End Reference.

Definition reference_runtime : Runtime :=
  {| JSON_parse := Reference.JSON_parse;
     JSON_stringify := Reference.JSON_stringify;
     String_trim := Reference.String_trim;
     String_toLowerCase := Reference.String_toLowerCase;
     encodeURIComponent := Reference.encodeURIComponent;
     parseInt := Reference.parseInt;
     Number_toString := Reference.Number_toString;
     StringToNumber := Reference.StringToNumber;
     SyntaxError_toString := Reference.SyntaxError_toString;
     TypeError_toString := Reference.TypeError_toString;
     JSON_parse_empty := eq_refl |}.

(** ** Views used in the statements *)

Section Views.
Context `{Runtime}.

(** The cache entry the lookup returns: stored under [key], not empty,
    and JSON. *)
Definition cached (key : string) (w : World) : option value :=
  match cache w !! key with
  | Some (text, _) => if nonempty text then JSON_parse text else None
  | None => None
  end.

(** The test of line 135, [data.matches && data.matches.length > 0], is
    passed by [matches]: it is truthy and its [length] is a number greater
    than 0.  A non-empty array passes it; so do a non-empty text and an
    object with such a [length]. *)
Definition passes_matches_test (matches : value) : Prop :=
  truthy matches = true ∧
  ∃ length_ n,
    read matches "length" = Ok length_ ∧ ToNumber_or_throw length_ = Ok n ∧
    x_lt (Finite (of_Z 0)) n = true.

End Views.

(** The events of a run from [w] to [w']. *)
Definition new_events (w w' : World) : list Event :=
  drop (length (trace w)) (trace w').

Definition is_put (ev : Event) : bool :=
  match ev with
  | CachePut _ _ _ => true
  | _ => false
  end.

(** A table of exactly one row. *)
Definition one_row (v : value) : Prop := ∃ row, v = VArr [VArr row].

(** The world after [cache.put(key, text, 120)] was called in [w]. *)
Definition after_put (key text : string) (w : World) : World :=
  match put_fault w with
  | Some _ => record (CachePut key text 120) w
  | None => store key text 120 (record (CachePut key text 120) w)
  end.

(** [w] without the entry under [key]. *)
Definition evict (key : string) (w : World) : World :=
  {| cache := delete key (cache w); network := network w;
     put_fault := put_fault w; trace := trace w |}.

(** The call misses the cache, and the API answers with a body that parses
    to the object [fields]. *)
Definition answers `{Runtime} (a : RawArgs) (w : World)
    (fields : list (string * value)) : Prop :=
  cached (cacheKey (normalize a)) w = None ∧
  ∃ code text,
    network w (fullUrl (normalize a)) = Response code text ∧
    JSON_parse text = Some (VObj fields).

(** The body reaches line 135 and passes its test with the array
    [matches]: no [error], no message of no match, and [matches] not
    empty. *)
Definition success_body (fields : list (string * value)) (matches : list value) : Prop :=
  truthy (own_property fields "error") = false ∧
  no_match_message (own_property fields "message") = false ∧
  own_property fields "matches" = VArr matches ∧
  matches ≠ [].

(** A match object of rank [rank] whose [metric] is the object
    [metric]. *)
Definition ranked (rank : Z) (fields metric : list (string * value)) : Prop :=
  strict_eq_int (own_property fields "rank") rank = true ∧
  own_property fields "metric" = VObj metric.

(** [explanation] if present, else the empty string (lines 172-176). *)
Definition explanation_cell (fields : list (string * value)) : value :=
  if truthy (own_property fields "explanation")
  then own_property fields "explanation" else VStr "".

(** The call gets to the success return with the table [v]: it misses
    the cache; the body parses to an object with no [error] and no message
    of no match, whose [matches] pass the test of line 135; and the loop of
    lines 139-169 ends without an exception, [v] being its row with the
    explanation cell. *)
Definition reaches_success `{Runtime} (a : RawArgs) (w : World) (v : value) : Prop :=
  ∃ fields cells,
    answers a w fields ∧
    truthy (own_property fields "error") = false ∧
    no_match_message (own_property fields "message") = false ∧
    passes_matches_test (own_property fields "matches") ∧
    format_matches (numMatches (normalize a)) (own_property fields "matches") = Ok cells ∧
    v = VArr [VArr (cells ++ [explanation_cell fields])].

(** The text of [v] can be made: [v] is not an object with a key
    [toString] of its own, nor an array that holds one. *)
Definition converts (v : value) : Prop := convertible v = true.

(** [w] with [cache.put] failing as [fault] says. *)
Definition with_put_fault (fault : option string) (w : World) : World :=
  {| cache := cache w; network := network w; put_fault := fault; trace := trace w |}.

(** No underscore in [s]. *)
Definition delimiter_free (s : string) : Prop := includes "_" s = false.

(** No underscore in any field but the last, [unit]. *)
Definition delimiter_free_fields (p : QueryParameters) : Prop :=
  delimiter_free (itemName p) ∧ delimiter_free (year p) ∧
  delimiter_free (geography p) ∧ delimiter_free (metric p) ∧
  delimiter_free (domain p) ∧ delimiter_free (mode p).

(** The characters of a printed integer: digits and the minus sign. *)
Fixpoint numeric (s : string) : bool :=
  match s with
  | EmptyString => true
  | String c rest =>
      (Ascii.eqb c "-" || (Ascii.leb "0" c && Ascii.leb c "9")) && numeric rest
  end.

(** ** Inputs to run the function on *)

(** [s] with every apostrophe read as a double quote: JSON text. *)
Fixpoint json (s : string) : string :=
  match s with
  | EmptyString => EmptyString
  | String c rest =>
      String (if Ascii.eqb c "'" then Reference.chr 34 else c) (json rest)
  end.

(** A call with an item name, a year and a number of matches, the other
    six arguments left out. *)
Definition call (name year count : value) : RawArgs :=
  {| raw_itemName := name; raw_year := year; raw_geography := VUndefined;
     raw_metric := VUndefined; raw_domain := VUndefined; raw_numMatches := count;
     raw_mode := VUndefined; raw_notEnglish := VUndefined; raw_unit := VUndefined |}.

(** A world with the given cache entries, in which every request gets
    the same outcome and [cache.put] works. *)
Definition world (entries : gmap string (string * Z)) (outcome : FetchOutcome) : World :=
  {| cache := entries; network := λ _, outcome; put_fault := None; trace := [] |}.

Definition steel_metric : list (string * value) :=
  [("value", VNum (Dec 25 (-1))); ("unit", VStr "kg CO2e/kg")].
Definition steel : list (string * value) :=
  [("rank", VNum (of_Z 1)); ("matched_name", VStr "Steel");
   ("metric", VObj steel_metric); ("year", VNum (of_Z 2020))].
Definition alloy_metric : list (string * value) :=
  [("value", VNum (Dec 17 (-1))); ("unit", VStr "kg CO2e/kg")].
Definition alloy : list (string * value) :=
  [("rank", VNum (of_Z 2)); ("matched_name", VStr "Steel, low-alloyed");
   ("metric", VObj alloy_metric); ("geography", VStr "EU")].

(** A body with two matches, ranked 2 and 1 in this order. *)
Definition two_matches_text : string :=
  json "{'matches':[{'rank':2,'matched_name':'Steel, low-alloyed','metric':{'value':1.7,'unit':'kg CO2e/kg'},'geography':'EU'},{'rank':1,'matched_name':'Steel','metric':{'value':2.5,'unit':'kg CO2e/kg'},'year':2020}],'explanation':'Closest products'}".
Definition two_matches : list (string * value) :=
  [("matches", VArr [VObj alloy; VObj steel]); ("explanation", VStr "Closest products")].

(** A body with two matches, ranked 1 and 3. *)
Definition ranks_1_and_3_text : string :=
  json "{'matches':[{'rank':1,'matched_name':'Steel','metric':{'value':2.5,'unit':'kg CO2e/kg'}},{'rank':3,'matched_name':'Iron','metric':{'value':1.9,'unit':'kg CO2e/kg'}}],'explanation':'Closest products'}".

(** The key of [call (VStr "steel") VUndefined (VNum (of_Z 2))]. *)
Definition steel_key : string := "LCA_steel___Carbon footprint__2_lite_false_".

(** ** Further views: the query, the loop, repeated calls *)

(** The names of the query parameters, in the order lines 61-72 append
    them. *)
Definition parameter_order : list string :=
  ["item_name"; "year"; "geography"; "metric"; "mode"; "web_mode";
   "num_matches"; "domain"; "not_english"; "unit"].

(** The names of the parameters a request carries. *)
Definition parameter_names `{Runtime} (p : QueryParameters) : list string :=
  fst <$> queryFields p.

(** Every argument of the call is falsy: left out, empty, [0], [false]. *)
Definition all_omitted (a : RawArgs) : Prop :=
  truthy (raw_itemName a) = false ∧ truthy (raw_year a) = false ∧
  truthy (raw_geography a) = false ∧ truthy (raw_metric a) = false ∧
  truthy (raw_domain a) = false ∧ truthy (raw_numMatches a) = false ∧
  truthy (raw_mode a) = false ∧ truthy (raw_notEnglish a) = false ∧
  truthy (raw_unit a) = false.

(** The cache is missed and the API answers with status [code] and body
    [text]. *)
Definition responds `{Runtime} (a : RawArgs) (w : World) (code : Z) (text : string) : Prop :=
  cached (cacheKey (normalize a)) w = None ∧
  network w (fullUrl (normalize a)) = Response code text.

(** The world when the response is classified: the cache was read and the
    request sent. *)
Definition fetched `{Runtime} (a : RawArgs) (w : World) : World :=
  record (Fetch (fullUrl (normalize a)))
    (record (CacheGet (cacheKey (normalize a))) w).

(** A match as the API documents it: an object whose [metric] is an
    object and whose [matched_name] has a text. *)
Definition well_formed (m : value) : Prop :=
  ∃ fields metric,
    m = VObj fields ∧ own_property fields "metric" = VObj metric ∧
    converts (own_property fields "matched_name").

(** [m.rank === i] on a match object. *)
Definition has_rank (i : Z) (m : value) : bool :=
  match m with
  | VObj fields => strict_eq_int (own_property fields "rank") i
  | _ => false
  end.

(** The eight cells of the match [m] shown as rank [i]. *)
Definition cells `{Runtime} (i : Z) (m : value) : list value :=
  match m with
  | VObj fields =>
      match own_property fields "metric" with
      | VObj metric =>
          [ VStr ("Match " +:+ pretty i +:+ ": " +:+ ToString (own_property fields "matched_name"));
            own_property metric "value";
            own_property metric "unit";
            js_or (own_property fields "year") (VStr "");
            js_or (own_property fields "geography") (VStr "");
            js_or (own_property fields "source") (VStr "");
            js_or (own_property fields "source_link") (VStr "");
            js_or (own_property fields "conversion_info") (VStr "") ]
      | _ => []
      end
  | _ => []
  end.

(** What rank [i] contributes to the row: the cells of the first match
    that carries it, nothing when no match does. *)
Definition shown `{Runtime} (matches : list value) (i : Z) : list value :=
  match List.find (has_rank i) matches with
  | Some m => cells i m
  | None => []
  end.

(** The ranks the loop visits: 1 up to the smaller of [n] and the number
    of matches. *)
Definition ranks_visited (n : Z) (matches : list value) : list Z :=
  seqZ 1 (Z.min n (Z.of_nat (length matches))).

(** The ranks among them that some match carries. *)
Definition ranks_shown (n : Z) (matches : list value) : list Z :=
  List.filter (λ i, existsb (has_rank i) matches) (ranks_visited n matches).

(** The cells of the matches, rank by rank. *)
Definition formatted `{Runtime} (n : Z) (matches : list value) : list value :=
  flat_map (shown matches) (ranks_visited n matches).

(** The events of a call, by the return it takes. *)
Definition events_of `{Runtime} (a : RawArgs) (o : Outcome) (v : value) : list Event :=
  let key := cacheKey (normalize a) in
  match o with
  | CacheHit => [CacheGet key]
  | Success =>
      [CacheGet key; Fetch (fullUrl (normalize a)); CachePut key (JSON_stringify v) 120]
  | _ => [CacheGet key; Fetch (fullUrl (normalize a))]
  end.

(** What the outer [catch] returns for the error [e]. *)
Definition caught `{Runtime} (e : exn) : Outcome * value :=
  if includes "timeout" (exn_toString e) || includes "execution time" (exn_toString e)
  then (Timeout, single (VStr timed_out))
  else (GenericFailure, single (VStr ("Error: " +:+ exn_toString e))).

(** ** More inputs *)

(** [SCOPEGREEN("steel")]: one match is asked for, by default. *)
Definition steel_call : RawArgs := call (VStr "steel") VUndefined VUndefined.

(** A world with an empty cache in which every request is answered with
    status [code] and body [text]. *)
Definition answering (code : Z) (text : string) : World := world ∅ (Response code text).

(** A body with an error and a match. *)
Definition error_with_matches_text : string :=
  json "{'error':{'code':400,'message':'Bad year'},'matches':[{'rank':1}]}".
Definition error_with_matches : list (string * value) :=
  [("error", VObj [("code", VNum (of_Z 400)); ("message", VStr "Bad year")]);
   ("matches", VArr [VObj [("rank", VNum (of_Z 1))]])].

(** A body with a message of no match and a match. *)
Definition no_match_with_matches_text : string :=
  json "{'message':'No good match was found for unobtainium','matches':[{'rank':1,'matched_name':'Steel','metric':{'value':2.5,'unit':'kg CO2e/kg'}}]}".
Definition steel_1 : list (string * value) :=
  [("rank", VNum (of_Z 1)); ("matched_name", VStr "Steel"); ("metric", VObj steel_metric)].
Definition no_match_with_matches : list (string * value) :=
  [("message", VStr "No good match was found for unobtainium");
   ("matches", VArr [VObj steel_1])].

(** A body with an empty array of matches and a message. *)
Definition empty_matches_text : string := json "{'matches':[],'message':'Quota low'}".
Definition empty_matches : list (string * value) :=
  [("matches", VArr []); ("message", VStr "Quota low")].

(** A body under status 429 that says why. *)
Definition slow_down_text : string := json "{'error':{'message':'slow down'}}".
Definition slow_down : list (string * value) :=
  [("error", VObj [("message", VStr "slow down")])].

(** A body whose only match has no [metric]. *)
Definition no_metric_text : string := json "{'matches':[{'rank':1,'matched_name':'Steel'}]}".
Definition steel_without_metric : list (string * value) :=
  [("rank", VNum (of_Z 1)); ("matched_name", VStr "Steel")].
Definition no_metric : list (string * value) :=
  [("matches", VArr [VObj steel_without_metric])].

(** A body whose first match is fine and whose other elements are not
    matches at all. *)
Definition steel_and_junk_text : string :=
  json "{'matches':[{'rank':1,'matched_name':'Steel','metric':{'value':2.5,'unit':'kg CO2e/kg'},'year':2020},null,'junk'],'explanation':'Closest products'}".
Definition steel_and_junk : list (string * value) :=
  [("matches", VArr [VObj steel; VNull; VStr "junk"]);
   ("explanation", VStr "Closest products")].

(** The body of [ranks_1_and_3_text]. *)
Definition iron_3 : list (string * value) :=
  [("rank", VNum (of_Z 3)); ("matched_name", VStr "Iron");
   ("metric", VObj [("value", VNum (Dec 19 (-1))); ("unit", VStr "kg CO2e/kg")])].
Definition ranks_1_and_3 : list (string * value) :=
  [("matches", VArr [VObj steel_1; VObj iron_3]); ("explanation", VStr "Closest products")].

(** A body whose [matches] is a text, not an array. *)
Definition text_for_matches_text : string := json "{'matches':'abc','explanation':'e'}".
Definition text_for_matches : list (string * value) :=
  [("matches", VStr "abc"); ("explanation", VStr "e")].

(** A body whose first match has an object with a key [toString] for its
    name. *)
Definition name_without_text_text : string :=
  json "{'matches':[{'rank':1,'matched_name':{'toString':1},'metric':{'value':2.5,'unit':'kg CO2e/kg'}},{'rank':2,'matched_name':'Steel, low-alloyed','metric':{'value':1.7,'unit':'kg CO2e/kg'}}],'explanation':'Closest products'}".

(** The table [SCOPEGREEN("steel", , , , , 2)] makes of [two_matches_text],
    and its text in the cache. *)
Definition two_matches_table : value :=
  VArr [VArr [
    VStr "Match 1: Steel"; VNum (Dec 25 (-1)); VStr "kg CO2e/kg";
    VNum (of_Z 2020); VStr ""; VStr ""; VStr ""; VStr "";
    VStr "Match 2: Steel, low-alloyed"; VNum (Dec 17 (-1)); VStr "kg CO2e/kg";
    VStr ""; VStr "EU"; VStr ""; VStr ""; VStr "";
    VStr "Closest products" ]].
Definition two_matches_table_text : string :=
  json "[['Match 1: Steel',2.5,'kg CO2e/kg',2020,'','','','','Match 2: Steel, low-alloyed',1.7,'kg CO2e/kg','','EU','','','','Closest products']]".

(** ** Properties *)

Section Theory.
Context `{Runtime}.

(** Unfold the plumbing of the monads, and nothing else. *)
Ltac run :=
  cbv [mbind mret M_bind M_ret Res_bind Res_ret lift try_catch Logger_log] in *.

Lemma cache_lookup_run key w :
  cache_lookup key w = (Ok (cached key w), record (CacheGet key) w).
Proof.
  unfold cache_lookup, cached, cache_get, JSON_parse_or_throw. run. simpl.
  destruct (cache w !! key) as [[text ttl]|]; simpl; [|done].
  destruct (nonempty text); [|done].
  by destruct (JSON_parse text).
Qed.

Lemma SCOPEGREEN_run_unfold a w :
  SCOPEGREEN_run a w =
  let p := normalize a in
  let w1 := record (CacheGet (cacheKey p)) w in
  match cached (cacheKey p) w with
  | Some v => (Ok (CacheHit, v), w1)
  | None => try_catch (try_block p (cacheKey p)) catch_block w1
  end.
Proof.
  unfold SCOPEGREEN_run. cbv [mbind M_bind]. rewrite cache_lookup_run.
  by destruct (cached _ w).
Qed.

Lemma try_block_run p key w :
  try_block p key w =
  match network w (fullUrl p) with
  | Response code text => respond p key code text (record (Fetch (fullUrl p)) w)
  | FetchFails d => (Throw (HostError d), record (Fetch (fullUrl p)) w)
  end.
Proof.
  unfold try_block, UrlFetchApp_fetch. cbv [mbind M_bind].
  by destruct (network w (fullUrl p)).
Qed.

Lemma success_block_run p key data matches w :
  success_block p key data matches w =
  match format_matches (numMatches p) matches with
  | Throw e => (Throw e, w)
  | Ok result =>
      match read data "explanation" with
      | Throw e => (Throw e, w)
      | Ok explanation =>
          let row := result ++ [if truthy explanation then explanation else VStr ""] in
          (Ok (Success, VArr [VArr row]),
           after_put key (JSON_stringify (VArr [VArr row])) w)
      end
  end.
Proof.
  unfold success_block, after_put, cache_put. run.
  destruct (format_matches _ _); [|done].
  destruct (read data "explanation"); [|done].
  by destruct (put_fault w).
Qed.

(** Follow every branch of a computation: case on the innermost scrutinee
    of the goal until none is left. *)
Ltac branches :=
  repeat first
    [ rewrite success_block_run
    | progress run
    | match goal with
      | |- context [match ?x with _ => _ end] =>
          lazymatch x with
          | context [match _ with _ => _ end] => fail
          | _ => destruct x eqn:?
          end
      end
    | progress simpl ].

(** What [respond] does to the world: only the success return writes. *)
Lemma respond_effect p key code text w :
  match respond p key code text w with
  | (Ok (Success, v), w') =>
      one_row v ∧ w' = after_put key (JSON_stringify v) w
  | (Ok (o, v), w') =>
      one_row v ∧ w' = w ∧ o ≠ CacheHit ∧ o ≠ Timeout ∧ o ≠ GenericFailure
  | (Throw _, w') => w' = w
  end.
Proof.
  assert (Hone : ∀ c, one_row (single c)) by (intros c; by exists [c]).
  unfold respond, rate_limit_block, parse_block, classify.
  branches; try done; split_and?; first [done | by eexists | eauto].
Qed.

Lemma respond_result p key code text w w0 :
  (respond p key code text w).1 = (respond p key code text w0).1.
Proof.
  unfold respond, rate_limit_block, parse_block, classify.
  branches; done.
Qed.

(** The rate-limit block changes nothing in the world and returns, if
    anything, a rate-limit row. *)
Lemma rate_limit_block_run text w :
  ∃ r, rate_limit_block text w = (Ok r, w)
    ∧ ∀ o v, r = Some (o, v) → o = RateLimited.
Proof.
  unfold rate_limit_block.
  branches; eexists; (split; [reflexivity|]); intros; by simplify_eq.
Qed.

Lemma parse_block_run text w :
  parse_block text w =
  (Ok match JSON_parse text with
      | Some data => match Object_keys data with Ok _ => Some data | Throw _ => None end
      | None => None
      end, w).
Proof.
  unfold parse_block, JSON_parse_or_throw. run.
  destruct (JSON_parse text) as [data|]; [|done]. by destruct (Object_keys data).
Qed.

(** The success return is taken only by a body that is an object with no
    [error] and no message of no match, whose [matches] pass the test of
    line 135 and are formatted without an exception. *)
Lemma classify_success_inv p key text data w v w' :
  classify p key text data w = (Ok (Success, v), w') →
  ∃ fields cells,
    data = VObj fields ∧
    truthy (own_property fields "error") = false ∧
    no_match_message (own_property fields "message") = false ∧
    passes_matches_test (own_property fields "matches") ∧
    format_matches (numMatches p) (own_property fields "matches") = Ok cells ∧
    v = VArr [VArr (cells ++ [explanation_cell fields])].
Proof.
  unfold classify, passes_matches_test, explanation_cell.
  destruct data as [| | | |s|elems|fields];
    try by (repeat first [progress simpl | progress run]; intros; simplify_eq).
  cbn [read]. run.
  destruct (truthy (own_property fields "error")) eqn:Herr.
  { repeat case_match; intros; simplify_eq. }
  destruct (no_match_message (own_property fields "message")) eqn:Hmsg; [done|].
  destruct (truthy (own_property fields "matches")) eqn:Hms.
  - destruct (read (own_property fields "matches") "length") as [length_|] eqn:Hlen; [|done].
    destruct (ToNumber_or_throw length_) as [n|] eqn:Hn; [|done].
    destruct (x_lt (Finite (of_Z 0)) n) eqn:Hlt.
    + rewrite success_block_run.
      destruct (format_matches _ _) as [cells|] eqn:Hfmt; [|done].
      intros [= <- _]. exists fields, cells. split_and!; eauto.
    + repeat case_match; intros; simplify_eq.
  - repeat case_match; intros; simplify_eq.
Qed.

Lemma respond_success_inv p key code text w v w' :
  respond p key code text w = (Ok (Success, v), w') →
  ∃ fields cells,
    JSON_parse text = Some (VObj fields) ∧
    truthy (own_property fields "error") = false ∧
    no_match_message (own_property fields "message") = false ∧
    passes_matches_test (own_property fields "matches") ∧
    format_matches (numMatches p) (own_property fields "matches") = Ok cells ∧
    v = VArr [VArr (cells ++ [explanation_cell fields])].
Proof.
  unfold respond. cbv [mbind M_bind mret M_ret].
  assert (Hdata : ∀ data,
    JSON_parse text = Some data →
    classify p key text data w = (Ok (Success, v), w') →
    ∃ fields cells,
      JSON_parse text = Some (VObj fields) ∧
      truthy (own_property fields "error") = false ∧
      no_match_message (own_property fields "message") = false ∧
      passes_matches_test (own_property fields "matches") ∧
      format_matches (numMatches p) (own_property fields "matches") = Ok cells ∧
      v = VArr [VArr (cells ++ [explanation_cell fields])]).
  { intros data Hp (fields & cells & -> & ?)%classify_success_inv. eauto. }
  destruct (code =? 429).
  - destruct (rate_limit_block_run text w) as (r & -> & Hr).
    destruct r as [[o v0]|].
    + intros [= -> _ _]. by specialize (Hr _ _ eq_refl).
    + rewrite parse_block_run.
      destruct (JSON_parse text) as [data|] eqn:Hp; [|done].
      destruct (Object_keys data); [|done]. by apply Hdata.
  - rewrite parse_block_run.
    destruct (JSON_parse text) as [data|] eqn:Hp; [|done].
    destruct (Object_keys data); [|done]. by apply Hdata.
Qed.

Lemma catch_block_result e w w0 : (catch_block e w).1 = (catch_block e w0).1.
Proof. unfold catch_block. by destruct (_ || _). Qed.

(** The network path: the fetch is recorded, every exception is caught,
    and only the success return goes on to write the cache. *)
Lemma network_path_effect p key w :
  let w2 := record (Fetch (fullUrl p)) w in
  match try_catch (try_block p key) catch_block w with
  | (Ok (Success, v), w') => one_row v ∧ w' = after_put key (JSON_stringify v) w2
  | (Ok (o, v), w') => one_row v ∧ w' = w2 ∧ o ≠ CacheHit
  | (Throw _, _) => False
  end.
Proof.
  assert (Hcatch : ∀ e w', ∃ o v,
    catch_block e w' = (Ok (o, v), w') ∧ one_row v ∧ o ≠ Success ∧ o ≠ CacheHit).
  { intros e w'. unfold catch_block.
    destruct (_ || _); eexists _, _; (split; [reflexivity|]);
      (split_and?; [by eexists|done..]). }
  cbv zeta. set (w2 := record (Fetch (fullUrl p)) w).
  unfold try_catch. rewrite try_block_run. fold w2.
  destruct (network w (fullUrl p)) as [code text|d].
  - pose proof (respond_effect p key code text w2) as Heff.
    destruct (respond p key code text w2) as [[[o v]|e] w'].
    + destruct o; tauto.
    + subst w'. destruct (Hcatch e w2) as (o & v & -> & ? & ? & ?).
      by destruct o.
  - destruct (Hcatch (HostError d) w2) as (o & v & -> & ? & ? & ?).
    by destruct o.
Qed.

Lemma new_events_record w ev : new_events w (record ev w) = [ev].
Proof. unfold new_events. simpl. by rewrite drop_app_length. Qed.

Lemma trace_after_put key text w :
  trace (after_put key text w) = trace w ++ [CachePut key text 120].
Proof. unfold after_put. by destruct (put_fault w). Qed.

Lemma cache_after_put key text w :
  cache (after_put key text w) =
  match put_fault w with
  | Some _ => cache w
  | None => <[key := (text, 120)]> (cache w)
  end.
Proof. unfold after_put. by destruct (put_fault w). Qed.

(** Every call returns; it is a cache hit exactly when the lookup finds a
    usable entry, and otherwise the fetch is among its events. *)
Lemma run_returns (a : RawArgs) (w : World) :
  ∃ o v w', SCOPEGREEN_run a w = (Ok (o, v), w')
    ∧ (o = CacheHit ↔ is_Some (cached (cacheKey (normalize a)) w))
    ∧ (o ≠ CacheHit →
       one_row v ∧ Fetch (fullUrl (normalize a)) ∈ new_events w w').
Proof.
  rewrite SCOPEGREEN_run_unfold. cbv zeta.
  destruct (cached _ w) as [v|] eqn:Hc.
  - eexists _, _, _. split; [reflexivity|]. split; [|done]. by split.
  - pose proof (network_path_effect (normalize a) (cacheKey (normalize a))
                  (record (CacheGet (cacheKey (normalize a))) w)) as Heff.
    cbv zeta in Heff.
    destruct (try_catch _ _ _) as [[[o v]|e] w']; [|done].
    eexists _, _, _. split; [reflexivity|].
    split.
    + split; [|by intros [? ?]]. intros ->. by destruct Heff as (_ & _ & ?).
    + intros _.
      assert (one_row v ∧ ∃ evs, trace w' =
                trace w ++ CacheGet (cacheKey (normalize a))
                  :: Fetch (fullUrl (normalize a)) :: evs) as [? [evs Hevs]].
      { destruct o; destruct Heff as [? Hw'];
          lazymatch type of Hw' with
          | _ ∧ _ =>
              destruct Hw' as [-> _]; split; [done|];
              exists []; simpl; by rewrite <- app_assoc
          | _ => idtac
          end.
        subst w'. split; [done|]. eexists [_].
        rewrite trace_after_put. simpl. by rewrite <- !app_assoc. }
      split; [done|]. unfold new_events. rewrite Hevs, drop_app_length.
      set_solver.
Qed.

(** C10: on every path but the cache hit, the function returns a table of
    exactly one row, whichever return statement is taken (rate limit,
    malformed body, API error, no match, success, unexpected shape), the
    two of the catch included: no exception of the fetch, the
    classification or the formatting gets through. *)
Theorem one_row_on_every_network_path (a : RawArgs) (w : World) :
  ∃ o v w', SCOPEGREEN_run a w = (Ok (o, v), w')
    ∧ (o = CacheHit ↔ is_Some (cached (cacheKey (normalize a)) w))
    ∧ (o ≠ CacheHit → one_row v).
Proof.
  destruct (run_returns a w) as (o & v & w' & ? & ? & Hrow).
  exists o, v, w'. split_and!; [done..|]. intros Ho. by apply Hrow.
Qed.

Lemma passes_matches_test_array elems : elems ≠ [] → passes_matches_test (VArr elems).
Proof.
  intros Hne. split; [done|]. eexists _, _. split_and!; [reflexivity..|].
  unfold x_lt, number_compare, of_Z. simpl. rewrite Z.mul_1_r.
  destruct elems; [done|]. reflexivity.
Qed.

(** A body that passes every test up to line 135, and whose matches are
    formatted without an exception, gets the success return, whatever the
    status code. *)
Lemma respond_reaches p key code text fields cells w :
  JSON_parse text = Some (VObj fields) →
  truthy (own_property fields "error") = false →
  no_match_message (own_property fields "message") = false →
  passes_matches_test (own_property fields "matches") →
  format_matches (numMatches p) (own_property fields "matches") = Ok cells →
  respond p key code text w =
  (Ok (Success, VArr [VArr (cells ++ [explanation_cell fields])]),
   after_put key (JSON_stringify (VArr [VArr (cells ++ [explanation_cell fields])])) w).
Proof.
  intros Hparse Herr Hmsg (Hms & length_ & n & Hlen & Hn & Hlt) Hfmt.
  unfold respond, rate_limit_block, parse_block, classify, JSON_parse_or_throw.
  rewrite Hparse. run. cbn [read Object_keys]. rewrite Herr, Hmsg, Hms, Hlen, Hn, Hlt.
  destruct (code =? 429); rewrite success_block_run, Hfmt; reflexivity.
Qed.

(** The success return is taken exactly by the calls that get to it. *)
Lemma run_reaches a w v :
  reaches_success a w v →
  SCOPEGREEN_run a w =
  (Ok (Success, v),
   after_put (cacheKey (normalize a)) (JSON_stringify v)
     (record (Fetch (fullUrl (normalize a)))
        (record (CacheGet (cacheKey (normalize a))) w))).
Proof.
  intros (fields & cells & (Hc & code & text & Hnet & Hparse) & Herr & Hmsg & Hms & Hfmt & ->).
  rewrite SCOPEGREEN_run_unfold. cbv zeta. rewrite Hc.
  unfold try_catch. rewrite try_block_run. simpl. rewrite Hnet.
  by rewrite (respond_reaches _ _ _ _ fields cells _ Hparse Herr Hmsg Hms Hfmt).
Qed.

Lemma run_success_inv a w v w' :
  SCOPEGREEN_run a w = (Ok (Success, v), w') → reaches_success a w v.
Proof.
  rewrite SCOPEGREEN_run_unfold. cbv zeta.
  destruct (cached _ w) eqn:Hc; [done|].
  unfold try_catch. rewrite try_block_run. simpl.
  assert (Hcatch : ∀ e w1, catch_block e w1 ≠ (Ok (Success, v), w')).
  { intros e w1. unfold catch_block. by destruct (_ || _). }
  destruct (network w _) as [code text|d] eqn:Hnet; [|by intros ?%Hcatch].
  destruct (respond _ _ code text _) as [[r|e] w1] eqn:Hr; [|by intros ?%Hcatch].
  intros [= -> ->].
  apply respond_success_inv in Hr as (fields & cells & ? & ? & ? & ? & ? & ?).
  exists fields, cells. split_and!; [|done..]. split; [done|]. by exists code, text.
Qed.

(** C7, as the code has it: the cache is written exactly on the success
    return, with the serialized one-row table and a time to live of 120
    seconds, and on every other return the cache is as it was.  The
    success return is taken exactly when the call gets to it
    ([reaches_success]): the body is an object with no [error] and no
    message of no match, its [matches] pass the test of line 135, and the
    loop ends without an exception.  A non-empty array of matches passes
    that test; it is not the only value that does.  Whether [cache.put]
    fails changes neither the outcome nor the row returned. *)
Theorem cache_written_exactly_on_success (a : RawArgs) (w : World) :
  ∃ o v w', SCOPEGREEN_run a w = (Ok (o, v), w')
    ∧ List.filter is_put (new_events w w') =
        match o with
        | Success => [CachePut (cacheKey (normalize a)) (JSON_stringify v) 120]
        | _ => []
        end
    ∧ cache w' =
        match o, put_fault w with
        | Success, None => <[cacheKey (normalize a) := (JSON_stringify v, 120)]> (cache w)
        | _, _ => cache w
        end
    ∧ (o = Success → reaches_success a w v)
    ∧ (∀ v0, reaches_success a w v0 → o = Success ∧ v = v0)
    ∧ (∀ fields matches cells,
         answers a w fields → success_body fields matches →
         format_matches (numMatches (normalize a)) (VArr matches) = Ok cells →
         reaches_success a w (VArr [VArr (cells ++ [explanation_cell fields])]))
    ∧ ∀ fault, (SCOPEGREEN_run a (with_put_fault fault w)).1 = Ok (o, v).
Proof.
  assert (Honly : ∀ o v w', SCOPEGREEN_run a w = (Ok (o, v), w') →
            o = Success → reaches_success a w v).
  { intros o v w' Hrun ->. eauto using run_success_inv. }
  assert (Hreach : ∀ o v w' v0, SCOPEGREEN_run a w = (Ok (o, v), w') →
            reaches_success a w v0 → o = Success ∧ v = v0).
  { intros o v w' v0 Hrun Hv0%run_reaches. rewrite Hv0 in Hrun. by simplify_eq. }
  assert (Harray : ∀ fields matches cells,
            answers a w fields → success_body fields matches →
            format_matches (numMatches (normalize a)) (VArr matches) = Ok cells →
            reaches_success a w (VArr [VArr (cells ++ [explanation_cell fields])])).
  { intros fields matches cells Hans (Herr & Hmsg & Hms & Hne) Hfmt.
    exists fields, cells. rewrite Hms. split_and!; try done.
    by apply passes_matches_test_array. }
  set (key := cacheKey (normalize a)).
  assert (Hfault : ∀ fault,
    (SCOPEGREEN_run a (with_put_fault fault w)).1 = (SCOPEGREEN_run a w).1).
  { intros fault. rewrite !SCOPEGREEN_run_unfold. cbv zeta. fold key.
    change (cached key (with_put_fault fault w)) with (cached key w).
    destruct (cached key w); [done|].
    unfold try_catch. rewrite !try_block_run. simpl.
    destruct (network w _) as [code text|d];
      [|unfold catch_block; by destruct (_ || _)].
    match goal with
    | |- context [respond ?p ?k ?c ?t ?w1] =>
        pose proof (respond_result p k c t w1
          (record (Fetch (fullUrl p)) (record (CacheGet key) w))) as Hr;
        pose proof (respond_effect p k c t w1) as He1
    end.
    pose proof (respond_effect (normalize a) key code text
      (record (Fetch (fullUrl (normalize a))) (record (CacheGet key) w))) as He2.
    destruct (respond _ _ _ _ _) as [[[o1 v1]|e1] w1'];
      destruct (respond _ _ _ _ _) as [[[o2 v2]|e2] w2']; simplify_eq/=; [done|].
    subst. unfold catch_block. by destruct (_ || _). }
  rewrite SCOPEGREEN_run_unfold in *. cbv zeta in *.
  fold key in Hfault, Honly, Hreach |- *.
  destruct (cached key w) as [v|] eqn:Hc.
  - eexists _, _, _. split; [reflexivity|].
    rewrite new_events_record. split_and!; [done|done|done|eauto|done|].
    intros fault. by rewrite Hfault.
  - pose proof (network_path_effect (normalize a) key (record (CacheGet key) w)) as Heff.
    cbv zeta in Heff.
    destruct (try_catch _ _ _) as [[[o v]|e] w'] eqn:Hrun; [|done].
    specialize (Honly o v w' eq_refl).
    specialize (λ v0, Hreach o v w' v0 eq_refl).
    eexists _, _, _. split; [reflexivity|].
    assert (Hev : ∀ evs, trace w' = trace w ++ evs → new_events w w' = evs).
    { intros evs Heq. unfold new_events. by rewrite Heq, drop_app_length. }
    destruct o; destruct Heff as [Hrow Hw'];
      lazymatch type of Hw' with
      | _ ∧ _ =>
          destruct Hw' as [-> _]; simpl;
          rewrite (Hev [CacheGet key; Fetch (fullUrl (normalize a))])
            by (simpl; by rewrite <- app_assoc);
          split_and!; [done|by destruct (put_fault w)|done|done|done|
                       intros fault; by rewrite Hfault]
      | _ => idtac
      end.
    subst w'. rewrite cache_after_put. simpl.
    rewrite (Hev [CacheGet key; Fetch (fullUrl (normalize a));
                  CachePut key (JSON_stringify v) 120])
      by (rewrite trace_after_put; simpl; by rewrite <- !app_assoc).
    split_and!; [done|by destruct (put_fault w)|done|done|done|
                 intros fault; by rewrite Hfault].
Qed.

(** *** Numbers *)

Lemma number_compare_of_Z x y : number_compare (of_Z x) (of_Z y) = (x ?= y).
Proof. unfold number_compare, of_Z. simpl. by rewrite !Z.mul_1_r. Qed.

Lemma x_le_of_Z x y : x_le (Finite (of_Z x)) (Finite (of_Z y)) = (x <=? y).
Proof.
  unfold x_le, x_lt. rewrite number_compare_of_Z, Z.compare_antisym.
  unfold Z.leb. by destruct (x ?= y).
Qed.

Lemma x_lt_of_Z x y : x_lt (Finite (of_Z x)) (Finite (of_Z y)) = (x <? y).
Proof. unfold x_lt. rewrite number_compare_of_Z. unfold Z.ltb. by destruct (x ?= y). Qed.

Lemma Math_min_of_Z x y :
  Math_min (Finite (of_Z x)) (Finite (of_Z y)) = Finite (of_Z (Z.min x y)).
Proof.
  unfold Math_min. rewrite x_lt_of_Z.
  destruct (Z.ltb_spec y x); f_equal; f_equal; lia.
Qed.

(** A value is strictly equal to at most one integer. *)
Lemma strict_eq_int_unique v i j :
  strict_eq_int v i = true → strict_eq_int v j = true → i = j.
Proof.
  destruct v as [| | |[m e]| | |]; try done. unfold strict_eq_int, number_compare. simpl.
  set (k := 0 - Z.min e 0). set (x := m * 10 ^ (e - Z.min e 0)).
  destruct (Z.compare_spec x (i * 10 ^ k)) as [Hi| |]; try done.
  destruct (Z.compare_spec x (j * 10 ^ k)) as [Hj| |]; try done.
  intros _ _. assert (0 < 10 ^ k) by (apply Z.pow_pos_nonneg; lia). nia.
Qed.

(** *** The success return *)

Lemma match_cells_ranked i fields metric :
  own_property fields "metric" = VObj metric →
  converts (own_property fields "matched_name") →
  match_cells i (VObj fields) =
  Ok [ VStr ("Match " +:+ pretty i +:+ ": " +:+ ToString (own_property fields "matched_name"));
       own_property metric "value";
       own_property metric "unit";
       js_or (own_property fields "year") (VStr "");
       js_or (own_property fields "geography") (VStr "");
       js_or (own_property fields "source") (VStr "");
       js_or (own_property fields "source_link") (VStr "");
       js_or (own_property fields "conversion_info") (VStr "") ].
Proof.
  intros Hm Hname. unfold match_cells, ToString_or_throw. simpl.
  rewrite Hm, Hname. reflexivity.
Qed.

(** A body that passes the test of line 135 returns the formatted row,
    whatever the status code. *)
Lemma respond_success p key code text fields matches cells w :
  JSON_parse text = Some (VObj fields) →
  success_body fields matches →
  format_matches (numMatches p) (VArr matches) = Ok cells →
  respond p key code text w =
  (Ok (Success, VArr [VArr (cells ++ [explanation_cell fields])]),
   after_put key (JSON_stringify (VArr [VArr (cells ++ [explanation_cell fields])])) w).
Proof.
  intros Hparse (Herr & Hmsg & Hms & Hne) Hfmt.
  apply respond_reaches; rewrite ?Hms; try done.
  by apply passes_matches_test_array.
Qed.

Lemma run_success a w fields matches cells :
  answers a w fields →
  success_body fields matches →
  format_matches (numMatches (normalize a)) (VArr matches) = Ok cells →
  let key := cacheKey (normalize a) in
  let row := cells ++ [explanation_cell fields] in
  SCOPEGREEN_run a w =
  (Ok (Success, VArr [VArr row]),
   after_put key (JSON_stringify (VArr [VArr row]))
     (record (Fetch (fullUrl (normalize a))) (record (CacheGet key) w))).
Proof.
  intros (Hc & code & text & Hnet & Hparse) Hbody Hfmt key row.
  rewrite SCOPEGREEN_run_unfold. cbv zeta. rewrite Hc.
  unfold try_catch. rewrite try_block_run. simpl. rewrite Hnet.
  by rewrite (respond_success _ _ _ _ _ _ _ _ Hparse Hbody Hfmt).
Qed.

Lemma read_length elems :
  read (VArr elems) "length" = Ok (VNum (of_Z (Z.of_nat (length elems)))).
Proof. reflexivity. Qed.

(** The loop over an array: its bound is a number. *)
Lemma format_matches_array n elems :
  format_matches n (VArr elems) =
  loop_from (S (length elems))
    (Math_min (int_number n) (Finite (of_Z (Z.of_nat (length elems)))))
    (VArr elems) 1 [].
Proof. reflexivity. Qed.

Lemma find_rank_here fields rest i :
  strict_eq_int (own_property fields "rank") i = true →
  find_rank (VObj fields :: rest) i = Ok (VObj fields).
Proof. intros Hr. simpl. cbv [mbind Res_bind]. by rewrite Hr. Qed.

Lemma find_rank_skip fields rest i j :
  strict_eq_int (own_property fields "rank") j = true → i ≠ j →
  find_rank (VObj fields :: rest) i = find_rank rest i.
Proof.
  intros Hr Hne. simpl. cbv [mbind Res_bind].
  destruct (strict_eq_int (own_property fields "rank") i) eqn:Hi; [|done].
  destruct Hne. eauto using strict_eq_int_unique.
Qed.

(** More turns than the bound allows change nothing. *)
Lemma loop_from_more turns extra bound matches i result :
  x_le (Finite (of_Z (i + Z.of_nat turns))) bound = false →
  loop_from (turns + extra) bound matches i result =
  loop_from turns bound matches i result.
Proof.
  revert i result. induction turns as [|turns IH]; intros i result Hstop.
  - rewrite Z.add_0_r in Hstop. destruct extra; [done|].
    cbn [Nat.add loop_from]. by rewrite Hstop.
  - cbn [Nat.add loop_from]. destruct (x_le (Finite (of_Z i)) bound); [|done].
    destruct (loop_body matches i result) as [result'|e]; [|done].
    cbv [mbind Res_bind]. apply IH. rewrite <- Hstop. do 3 f_equal. lia.
Qed.

(** The turns [format_matches] allows are enough: the loop of lines
    139-169 ends within them, by its own test or by an exception. *)
Lemma loop_from_enough n matches length_ length_number extra :
  read matches "length" = Ok length_ →
  ToNumber_or_throw length_ = Ok length_number →
  let bound := Math_min (int_number n) length_number in
  loop_from (S (elements matches) + extra) bound matches 1 [] =
  loop_from (S (elements matches)) bound matches 1 [].
Proof.
  intros Hread Hnumber bound.
  destruct matches as [| | | | |elems|]; try done;
    try (cbn [elements Nat.add loop_from]; destruct (x_le _ bound); reflexivity).
  apply loop_from_more. subst bound. rewrite read_length in Hread.
  injection Hread as <-. injection Hnumber as <-. cbn [elements ToNumber].
  destruct n as [z|]; [|done]. cbn [int_number].
  rewrite Math_min_of_Z, x_le_of_Z. apply Z.leb_gt. lia.
Qed.

(** Two matches ranked 1 and 2, in either order, with two or more
    matches asked for: the cells of rank 1, then those of rank 2. *)
Lemma format_two_ranked n f1 g1 f2 g2 matches c1 c2 :
  2 ≤ n →
  ranked 1 f1 g1 → ranked 2 f2 g2 →
  matches = [VObj f1; VObj f2] ∨ matches = [VObj f2; VObj f1] →
  match_cells 1 (VObj f1) = Ok c1 →
  match_cells 2 (VObj f2) = Ok c2 →
  format_matches (Some n) (VArr matches) = Ok (c1 ++ c2).
Proof.
  intros Hn [Hr1 _] [Hr2 _] Horder Hc1 Hc2.
  assert (Hlen : length matches = 2%nat) by (by destruct Horder as [-> | ->]).
  rewrite format_matches_array. cbn [int_number]. rewrite Hlen.
  change (Z.of_nat 2) with 2. rewrite Math_min_of_Z, Z.min_r by done.
  cbn [loop_from]. rewrite !x_le_of_Z.
  change (1 + 1) with 2. change (1 <=? 2) with true.
  change (2 <=? 2) with true. change (2 + 1 <=? 2) with false.
  unfold loop_body, matches_find. cbv [mbind Res_bind].
  destruct Horder as [-> | ->].
  - rewrite (find_rank_here f1) by done. cbn [truthy]. rewrite Hc1.
    rewrite (find_rank_skip f1 _ 2 1), (find_rank_here f2) by done.
    cbn [truthy]. by rewrite Hc2.
  - rewrite (find_rank_skip f2 _ 1 2), (find_rank_here f1) by done.
    cbn [truthy]. rewrite Hc1.
    rewrite (find_rank_here f2) by done. cbn [truthy]. by rewrite Hc2.
Qed.

(** C4: two matches asked for, and a success body whose two matches are
    ranked 1 and 2 (in either order), each with a [metric] object and a
    [matched_name] that has a text (any value but an object with a key
    [toString] of its own, whose conversion at line 144 raises): the row
    returned has exactly 17 cells, the eight of the match of rank 1, the
    eight of the match of rank 2, and the explanation, or the empty string
    when there is none. *)
Theorem two_ranked_matches_give_seventeen_cells
    (a : RawArgs) (w : World) (fields f1 g1 f2 g2 : list (string * value))
    (matches : list value) :
  answers a w fields →
  success_body fields matches →
  matches = [VObj f1; VObj f2] ∨ matches = [VObj f2; VObj f1] →
  ranked 1 f1 g1 → ranked 2 f2 g2 →
  converts (own_property f1 "matched_name") →
  converts (own_property f2 "matched_name") →
  numMatches (normalize a) = Some 2 →
  SCOPEGREEN a w =
  Ok (VArr [VArr [
    VStr ("Match 1: " +:+ ToString (own_property f1 "matched_name"));
    own_property g1 "value";
    own_property g1 "unit";
    js_or (own_property f1 "year") (VStr "");
    js_or (own_property f1 "geography") (VStr "");
    js_or (own_property f1 "source") (VStr "");
    js_or (own_property f1 "source_link") (VStr "");
    js_or (own_property f1 "conversion_info") (VStr "");
    VStr ("Match 2: " +:+ ToString (own_property f2 "matched_name"));
    own_property g2 "value";
    own_property g2 "unit";
    js_or (own_property f2 "year") (VStr "");
    js_or (own_property f2 "geography") (VStr "");
    js_or (own_property f2 "source") (VStr "");
    js_or (own_property f2 "source_link") (VStr "");
    js_or (own_property f2 "conversion_info") (VStr "");
    explanation_cell fields ]])
  ∧ (own_property fields "explanation" = VUndefined → explanation_cell fields = VStr "")
  ∧ (∀ s, own_property fields "explanation" = VStr s → explanation_cell fields = VStr s).
Proof.
  intros Hans Hbody Horder Hr1 Hr2 Hname1 Hname2 Hn. split_and!.
  - unfold SCOPEGREEN.
    rewrite (run_success a w fields matches _ Hans Hbody
               ltac:(rewrite Hn; eapply (format_two_ranked 2); eauto;
                     [lia | apply match_cells_ranked; [apply Hr1|done]
                          | apply match_cells_ranked; [apply Hr2|done]])).
    reflexivity.
  - unfold explanation_cell. by intros ->.
  - unfold explanation_cell. intros s ->. simpl.
    by destruct (String.eqb_spec s "") as [->|].
Qed.

(** C3, as the code has it: three matches asked for, and a success body
    with exactly two matches, which are ranked 1 and 2, each with a
    [metric] object and a [matched_name] that has a text: the row has
    8 * 2 + 1 = 17 cells, the loop stopping at the number of matches
    present. *)
Theorem two_of_three_matches_give_seventeen_cells
    (a : RawArgs) (w : World) (fields f1 g1 f2 g2 : list (string * value))
    (matches : list value) :
  answers a w fields →
  success_body fields matches →
  matches = [VObj f1; VObj f2] ∨ matches = [VObj f2; VObj f1] →
  ranked 1 f1 g1 → ranked 2 f2 g2 →
  converts (own_property f1 "matched_name") →
  converts (own_property f2 "matched_name") →
  numMatches (normalize a) = Some 3 →
  ∃ row, SCOPEGREEN a w = Ok (VArr [VArr row]) ∧ length row = 17%nat.
Proof.
  intros Hans Hbody Horder Hr1 Hr2 Hname1 Hname2 Hn.
  eexists. unfold SCOPEGREEN.
  rewrite (run_success a w fields matches _ Hans Hbody
             ltac:(rewrite Hn; eapply (format_two_ranked 3); eauto;
                   [lia | apply match_cells_ranked; [apply Hr1|done]
                        | apply match_cells_ranked; [apply Hr2|done]])).
  split; reflexivity.
Qed.

Lemma format_matches_NaN elems : format_matches None (VArr elems) = Ok [].
Proof. reflexivity. Qed.

(** C9: when the raw [numMatches] is truthy and [parseInt] makes NaN of
    it, the prepared [numMatches] is NaN, the request carries no
    [num_matches] parameter, and a success body yields a row of one cell,
    the explanation or the empty string: the loop takes no turn. *)
Theorem unparsable_numMatches_gives_one_cell
    (a : RawArgs) (w : World) (fields : list (string * value)) (matches : list value) :
  truthy (raw_numMatches a) = true →
  parseInt (ToString (raw_numMatches a)) = None →
  numMatches (normalize a) = None
  ∧ ("num_matches" ∉ fst <$> queryFields (normalize a))
  ∧ (answers a w fields → success_body fields matches →
     SCOPEGREEN a w = Ok (VArr [VArr [explanation_cell fields]])).
Proof.
  intros Ht Hp.
  assert (Hn : numMatches (normalize a) = None) by (simpl; by rewrite Ht).
  split_and!; [done|..].
  - unfold queryFields, optional. rewrite Hn.
    repeat match goal with |- context [nonempty ?s] => destruct (nonempty s) end;
      simpl; rewrite ?elem_of_cons, elem_of_nil; intuition discriminate.
  - intros Hans Hbody. unfold SCOPEGREEN.
    by rewrite (run_success a w fields matches [] Hans Hbody
                  ltac:(rewrite Hn; apply format_matches_NaN)).
Qed.

Lemma respond_malformed p key code text w :
  code ≠ 429 → JSON_parse text = None →
  respond p key code text w = (Ok (Malformed, single (VStr text)), w).
Proof.
  intros Hcode Hparse. unfold respond, parse_block, JSON_parse_or_throw.
  apply Z.eqb_neq in Hcode. rewrite Hcode, Hparse. reflexivity.
Qed.

(** C5: a response whose status is not 429 and whose body is not JSON is
    returned as a row of one cell, the raw body text itself. *)
Theorem malformed_body_is_returned_verbatim
    (a : RawArgs) (w : World) (code : Z) (text : string) :
  cached (cacheKey (normalize a)) w = None →
  network w (fullUrl (normalize a)) = Response code text →
  code ≠ 429 →
  JSON_parse text = None →
  SCOPEGREEN a w = Ok (VArr [VArr [VStr text]]).
Proof.
  intros Hc Hnet Hcode Hparse. unfold SCOPEGREEN.
  rewrite SCOPEGREEN_run_unfold. cbv zeta. rewrite Hc.
  unfold try_catch. rewrite try_block_run. simpl. rewrite Hnet.
  by rewrite respond_malformed.
Qed.

Lemma cached_evict key w : cached key (evict key w) = None.
Proof. unfold cached, evict. simpl. by rewrite lookup_delete_eq. Qed.

(** C6: when the cache holds a text under the key, and the text parses,
    the parsed value is returned and the only event of the call is the
    cache read: nothing is fetched.  When the text does not parse, nothing
    is raised: the call fetches, and returns what it returns when the
    entry is absent. *)
Theorem cache_hit_returns_without_fetching
    (a : RawArgs) (w : World) (text : string) (ttl : Z) :
  cache w !! cacheKey (normalize a) = Some (text, ttl) →
  let key := cacheKey (normalize a) in
  (∀ v, JSON_parse text = Some v →
     ∃ w', SCOPEGREEN_run a w = (Ok (CacheHit, v), w')
       ∧ new_events w w' = [CacheGet key])
  ∧ (JSON_parse text = None →
     ∃ o v w', SCOPEGREEN_run a w = (Ok (o, v), w')
       ∧ o ≠ CacheHit
       ∧ Fetch (fullUrl (normalize a)) ∈ new_events w w'
       ∧ (SCOPEGREEN_run a (evict key w)).1 = Ok (o, v)).
Proof.
  intros Hget key. subst key. set (key := cacheKey (normalize a)) in *. split.
  - intros v Hparse. eexists.
    rewrite SCOPEGREEN_run_unfold. cbv zeta. fold key.
    assert (cached key w = Some v) as ->.
    { unfold cached. rewrite Hget. destruct (nonempty text) eqn:Hne; [done|].
      apply negb_false_iff, String.eqb_eq in Hne. subst text.
      by rewrite JSON_parse_empty in Hparse. }
    split; [reflexivity|]. apply new_events_record.
  - intros Hparse.
    assert (Hc : cached key w = None).
    { unfold cached. rewrite Hget. by destruct (nonempty text). }
    destruct (run_returns a w) as (o & v & w' & Hrun & Hhit & Hev).
    fold key in Hhit.
    exists o, v, w'. split; [done|].
    assert (o ≠ CacheHit) as Ho.
    { intros Heq. apply Hhit in Heq. rewrite Hc in Heq. by destruct Heq. }
    split_and!; [done|by apply Hev|].
    rewrite SCOPEGREEN_run_unfold in Hrun |- *. cbv zeta in *. fold key in Hrun |- *.
    rewrite cached_evict. rewrite Hc in Hrun.
    unfold try_catch in *. rewrite try_block_run in Hrun |- *. simpl in *.
    destruct (network w _) as [code text'|d].
    + match goal with
      | |- context [respond ?p ?k ?c ?t ?w1] =>
          match type of Hrun with
          | context [respond _ _ _ _ ?w2] =>
              pose proof (respond_result p k c t w1 w2) as Hr;
              pose proof (respond_effect p k c t w1) as He1;
              pose proof (respond_effect p k c t w2) as He2
          end
      end.
      destruct (respond _ _ _ _ _) as [[[o1 v1]|e1] w1'];
        destruct (respond _ _ _ _ _) as [[[o2 v2]|e2] w2']; simplify_eq/=; try done.
      apply (f_equal fst) in Hrun. simpl in Hrun. rewrite <- Hrun.
      apply catch_block_result.
    + apply (f_equal fst) in Hrun. simpl in Hrun. rewrite <- Hrun.
      apply catch_block_result.
Qed.

Lemma try_block_fetch_fails p key w d :
  network w (fullUrl p) = FetchFails d →
  try_block p key w = (Throw (HostError d), record (Fetch (fullUrl p)) w).
Proof. intros Hnet. by rewrite try_block_run, Hnet. Qed.

(** C8: when the fetch, the classification or the formatting raises an
    error whose text contains [timeout] or [execution time], the function
    does not pass it on: it returns the one-cell row of the time-out
    message. *)
Theorem timeout_error_becomes_a_message
    (a : RawArgs) (w w' : World) (e : exn) :
  let p := normalize a in
  cached (cacheKey p) w = None →
  try_block p (cacheKey p) (record (CacheGet (cacheKey p)) w) = (Throw e, w') →
  includes "timeout" (exn_toString e) = true
    ∨ includes "execution time" (exn_toString e) = true →
  SCOPEGREEN_run a w =
  (Ok (Timeout,
       VArr [VArr [VStr "Error: API request timed out. Try simplifying your query."]]),
   w').
Proof.
  intros p Hc Htry Hinc.
  rewrite SCOPEGREEN_run_unfold. cbv zeta. fold p. rewrite Hc.
  unfold try_catch. rewrite Htry. unfold catch_block.
  assert ((includes "timeout" (exn_toString e)
           || includes "execution time" (exn_toString e)) = true) as ->.
  { apply orb_true_iff. tauto. }
  reflexivity.
Qed.

(** *** Status 429 *)

(** The two returns of the rate-limit block. *)
Lemma respond_rate_limited_unparsable p key text w :
  JSON_parse text = None →
  respond p key 429 text w = (Ok (RateLimited, single (VStr rate_limit_generic)), w).
Proof.
  intros Hparse. unfold respond, rate_limit_block, JSON_parse_or_throw.
  rewrite Hparse. reflexivity.
Qed.

Lemma respond_rate_limited_message p key text fields error message w :
  JSON_parse text = Some (VObj fields) →
  own_property fields "error" = error → truthy error = true →
  read error "message" = Ok message → truthy message = true →
  converts message →
  respond p key 429 text w =
  (Ok (RateLimited, single (VStr ("Rate limit exceeded: " +:+ ToString message))), w).
Proof.
  intros Hparse <- Herr Hmsg Ht Hconv.
  unfold respond, rate_limit_block, JSON_parse_or_throw, ToString_or_throw.
  rewrite Hparse. change (429 =? 429) with true.
  cbv [mbind M_bind lift try_catch]. cbn [read].
  rewrite Herr, Hmsg, Ht, Hconv. reflexivity.
Qed.

(** *** The request *)

Lemma nonempty_iff s : nonempty s = true ↔ s ≠ "".
Proof.
  unfold nonempty. rewrite negb_true_iff. split.
  - intros Hs ->. done.
  - intros Hs. by apply String.eqb_neq.
Qed.

(** X1: the request names its parameters in one fixed order, none of
    them twice; [item_name], [web_mode] and [not_english] are always
    among them, [web_mode] always with the value [false]. *)
Theorem query_parameters_keep_their_order (p : QueryParameters) :
  sublist (parameter_names p) parameter_order
  ∧ NoDup (parameter_names p)
  ∧ head (queryFields p) = Some ("item_name", encodeURIComponent (itemName p))
  ∧ ("web_mode", "false") ∈ queryFields p
  ∧ ("not_english", encodeURIComponent (bool_toString (notEnglish p))) ∈ queryFields p.
Proof.
  assert (Hsub : sublist (parameter_names p) parameter_order).
  { unfold parameter_names, parameter_order, queryFields, optional.
    destruct (numMatches p) as [z|]; [destruct (z =? 0)|];
      repeat match goal with |- context [nonempty ?s] => destruct (nonempty s) end;
      simpl;
      repeat first [apply sublist_nil | apply sublist_skip | apply sublist_cons]. }
  split_and!; [done|..].
  - apply (sublist_NoDup _ parameter_order); [|done]. unfold parameter_order.
    by apply (bool_decide_unpack _).
  - done.
  - unfold queryFields. set_solver.
  - unfold queryFields. set_solver.
Qed.

Lemma elem_of_optional x name s :
  x ∈ (optional name s).*1 ↔ x = name ∧ nonempty s = true.
Proof.
  unfold optional. destruct (nonempty s); simpl.
  - rewrite list_elem_of_singleton. intuition congruence.
  - rewrite elem_of_nil. intuition congruence.
Qed.

(** The names a request carries, one by one. *)
Lemma parameter_names_spec x p :
  x ∈ parameter_names p ↔
    x = "item_name"
    ∨ (x = "year" ∧ nonempty (year p) = true)
    ∨ (x = "geography" ∧ nonempty (geography p) = true)
    ∨ (x = "metric" ∧ nonempty (metric p) = true)
    ∨ (x = "mode" ∧ nonempty (mode p) = true)
    ∨ x = "web_mode"
    ∨ (x = "num_matches" ∧ ∃ z, numMatches p = Some z ∧ z ≠ 0)
    ∨ (x = "domain" ∧ nonempty (domain p) = true)
    ∨ x = "not_english"
    ∨ (x = "unit" ∧ nonempty (unit_ p) = true).
Proof.
  unfold parameter_names, queryFields.
  rewrite !fmap_app, !elem_of_app, !elem_of_optional. cbn [fmap list_fmap fst].
  rewrite !list_elem_of_singleton.
  assert (Hn : x ∈ (match numMatches p with
                    | Some z =>
                        if z =? 0 then []
                        else [("num_matches", encodeURIComponent (int_toString (Some z)))]
                    | None => []
                    end).*1
               ↔ x = "num_matches" ∧ ∃ z, numMatches p = Some z ∧ z ≠ 0).
  { destruct (numMatches p) as [z|]; [destruct (Z.eqb_spec z 0)|]; simpl;
      rewrite ?list_elem_of_singleton, ?elem_of_nil.
    - split; [done|]. by intros (_ & ? & [= <-] & ?).
    - split; [eauto|tauto].
    - split; [done|]. by intros (_ & ? & ? & ?). }
  rewrite Hn. tauto.
Qed.

(** X2: an optional parameter is sent exactly when its prepared value is
    not empty, and [num_matches] exactly when [numMatches] is an integer
    other than 0. *)
Theorem optional_parameters_are_sent_when_set (p : QueryParameters) :
  ("year" ∈ parameter_names p ↔ year p ≠ "")
  ∧ ("geography" ∈ parameter_names p ↔ geography p ≠ "")
  ∧ ("metric" ∈ parameter_names p ↔ metric p ≠ "")
  ∧ ("mode" ∈ parameter_names p ↔ mode p ≠ "")
  ∧ ("domain" ∈ parameter_names p ↔ domain p ≠ "")
  ∧ ("unit" ∈ parameter_names p ↔ unit_ p ≠ "")
  ∧ ("num_matches" ∈ parameter_names p ↔ ∃ z, numMatches p = Some z ∧ z ≠ 0).
Proof.
  rewrite <- !nonempty_iff, !parameter_names_spec.
  split_and!;
    (split; [intros Hx; repeat destruct Hx as [Hx|Hx];
               first [done | tauto | by destruct Hx]
            |tauto]).
Qed.

(** X3: a call whose arguments are all left out or falsy still goes out:
    the defaults of lines 30-38 are taken, and the request carries exactly
    [item_name] (empty), [metric], [mode], [web_mode], [num_matches] and
    [not_english]. *)
Theorem omitted_arguments_take_the_defaults (a : RawArgs) :
  all_omitted a →
  normalize a =
    {| itemName := ""; year := ""; geography := ""; metric := "Carbon footprint";
       domain := ""; numMatches := Some 1; mode := "lite"; notEnglish := false;
       unit_ := "" |}
  ∧ cacheKey (normalize a) = "LCA____Carbon footprint__1_lite_false_"
  ∧ queryFields (normalize a) =
      [ ("item_name", encodeURIComponent "");
        ("metric", encodeURIComponent "Carbon footprint");
        ("mode", encodeURIComponent "lite");
        ("web_mode", "false");
        ("num_matches", encodeURIComponent "1");
        ("not_english", encodeURIComponent "false") ].
Proof.
  intros (H1 & H2 & H3 & H4 & H5 & H6 & H7 & H8 & H9).
  assert (Hp : normalize a =
    {| itemName := ""; year := ""; geography := ""; metric := "Carbon footprint";
       domain := ""; numMatches := Some 1; mode := "lite"; notEnglish := false;
       unit_ := "" |}).
  { unfold normalize, prepared. rewrite H1, H2, H3, H4, H5, H6, H7, H9.
    f_equal. destruct (raw_notEnglish a) as [| |[]| |s| |]; try done.
    simpl in H8. apply negb_false_iff, String.eqb_eq in H8. by subst s. }
  rewrite Hp. split_and!; reflexivity.
Qed.

(** *** The responses that are not a success *)

(** A response that [respond] turns into a return is what the call
    returns, in the world [respond] leaves. *)
Lemma run_responded a w code text r w' :
  responds a w code text →
  respond (normalize a) (cacheKey (normalize a)) code text (fetched a w) = (Ok r, w') →
  SCOPEGREEN_run a w = (Ok r, w').
Proof.
  intros [Hc Hnet] Hr. rewrite SCOPEGREEN_run_unfold. cbv zeta. rewrite Hc.
  unfold try_catch. rewrite try_block_run. simpl. rewrite Hnet.
  unfold fetched in Hr. by rewrite Hr.
Qed.

Lemma catch_block_caught e w : catch_block e w = (Ok (caught e), w).
Proof. unfold catch_block, caught. by destruct (_ || _). Qed.

(** An exception of [respond] goes to the outer [catch]. *)
Lemma run_raised a w code text e :
  responds a w code text →
  (respond (normalize a) (cacheKey (normalize a)) code text (fetched a w)).1 = Throw e →
  SCOPEGREEN_run a w = (Ok (caught e), fetched a w).
Proof.
  intros [Hc Hnet] Hr. rewrite SCOPEGREEN_run_unfold. cbv zeta. rewrite Hc.
  unfold try_catch. rewrite try_block_run. simpl. rewrite Hnet.
  pose proof (respond_effect (normalize a) (cacheKey (normalize a)) code text
                (fetched a w)) as Heff.
  unfold fetched in *.
  destruct (respond _ _ _ _ _) as [[r|e'] w']; simplify_eq/=.
  apply catch_block_caught.
Qed.

Lemma SCOPEGREEN_of_run a w o v w' :
  SCOPEGREEN_run a w = (Ok (o, v), w') → SCOPEGREEN a w = Ok v.
Proof. unfold SCOPEGREEN. by intros ->. Qed.

Lemma respond_api_error p key code text fields c m w :
  JSON_parse text = Some (VObj fields) →
  truthy (own_property fields "error") = true →
  read (own_property fields "error") "code" = Ok c →
  read (own_property fields "error") "message" = Ok m →
  converts c → converts m →
  code ≠ 429 ∨ truthy m = false →
  respond p key code text w =
  (Ok (ApiError, single (VStr (ToString c +:+ ": " +:+ ToString m))), w).
Proof.
  intros Hparse Herr Hc Hm Hcc Hcm Hcode.
  unfold respond, rate_limit_block, parse_block, classify, JSON_parse_or_throw,
    ToString_or_throw.
  rewrite Hparse. run. cbn [read Object_keys]. rewrite Herr, Hc, Hm, Hcc, Hcm.
  destruct (code =? 429) eqn:H429; [|done].
  destruct Hcode as [Hcode| ->]; [|done]. by apply Z.eqb_eq in H429.
Qed.

(** X4: a body with a truthy [error] whose [code] and [message] have a
    text is answered with the one cell [code: message] of that error,
    whatever else the body holds, matches included, and whatever the
    status; only status 429 with a truthy [error.message] is answered by
    the rate-limit return instead.  The two properties are read as they
    are: of an [error] that is a text they are [undefined]. *)
Theorem api_error_is_reported_first
    (a : RawArgs) (w : World) (code : Z) (text : string)
    (fields : list (string * value)) (c m : value) :
  responds a w code text →
  JSON_parse text = Some (VObj fields) →
  truthy (own_property fields "error") = true →
  read (own_property fields "error") "code" = Ok c →
  read (own_property fields "error") "message" = Ok m →
  converts c → converts m →
  code ≠ 429 ∨ truthy m = false →
  SCOPEGREEN_run a w =
  (Ok (ApiError, VArr [VArr [VStr (ToString c +:+ ": " +:+ ToString m)]]), fetched a w).
Proof.
  intros Hresp Hparse Herr Hc Hm Hcc Hcm Hcode.
  apply (run_responded a w code text); [done|].
  by apply (respond_api_error _ _ _ _ fields).
Qed.

Lemma respond_no_match p key code text fields w :
  JSON_parse text = Some (VObj fields) →
  truthy (own_property fields "error") = false →
  no_match_message (own_property fields "message") = true →
  respond p key code text w =
  (Ok (NoMatch, single (own_property fields "message")), w).
Proof.
  intros Hparse Herr Hmsg.
  unfold respond, rate_limit_block, parse_block, classify, JSON_parse_or_throw.
  rewrite Hparse. run. cbn [read Object_keys]. rewrite Herr, Hmsg.
  by destruct (code =? 429).
Qed.

(** X5: a body without [error] whose [message] is a text containing
    [No good match was found] is answered with that message alone, even
    when the body also holds matches, and whatever the status; nothing is
    cached. *)
Theorem no_match_message_comes_before_matches
    (a : RawArgs) (w : World) (code : Z) (text : string)
    (fields : list (string * value)) (message : string) :
  responds a w code text →
  JSON_parse text = Some (VObj fields) →
  truthy (own_property fields "error") = false →
  own_property fields "message" = VStr message →
  includes "No good match was found" message = true →
  SCOPEGREEN_run a w = (Ok (NoMatch, VArr [VArr [VStr message]]), fetched a w).
Proof.
  intros Hresp Hparse Herr Hmsg Hinc.
  apply (run_responded a w code text); [done|].
  rewrite <- Hmsg. apply respond_no_match; [done..|].
  rewrite Hmsg. unfold no_match_message. rewrite Hinc, andb_true_r.
  destruct message; [done|done].
Qed.

Lemma respond_unexpected p key code text fields w :
  JSON_parse text = Some (VObj fields) →
  truthy (own_property fields "error") = false →
  no_match_message (own_property fields "message") = false →
  truthy (own_property fields "matches") = false
    ∨ own_property fields "matches" = VArr [] →
  converts (own_property fields "message") →
  respond p key code text w =
  (Ok (UnexpectedShape,
       single (VStr (if truthy (own_property fields "message")
                     then "Message from API: " +:+ ToString (own_property fields "message")
                     else text))), w).
Proof.
  intros Hparse Herr Hmsg Hms Hconv.
  unfold respond, rate_limit_block, parse_block, classify, JSON_parse_or_throw,
    ToString_or_throw.
  rewrite Hparse. run. cbn [read Object_keys]. rewrite Herr, Hmsg, Hconv.
  destruct Hms as [Hms|Hms]; rewrite Hms; simpl;
    destruct (code =? 429); by destruct (truthy (own_property fields "message")).
Qed.

(** X6: a body that is an object with no [error], no message of no
    match, and no matches ([matches] missing, falsy or an empty array) is
    answered with [Message from API: ] and its [message] when it has one,
    a [message] that has a text, else with the raw body text; nothing is
    cached. *)
Theorem body_without_matches_gives_message_or_raw_text
    (a : RawArgs) (w : World) (code : Z) (text : string)
    (fields : list (string * value)) :
  responds a w code text →
  JSON_parse text = Some (VObj fields) →
  truthy (own_property fields "error") = false →
  no_match_message (own_property fields "message") = false →
  truthy (own_property fields "matches") = false
    ∨ own_property fields "matches" = VArr [] →
  converts (own_property fields "message") →
  SCOPEGREEN_run a w =
  (Ok (UnexpectedShape,
       VArr [VArr [VStr (if truthy (own_property fields "message")
                         then "Message from API: " +:+ ToString (own_property fields "message")
                         else text)]]),
   fetched a w).
Proof.
  intros Hresp Hparse Herr Hmsg Hms Hconv.
  apply (run_responded a w code text); [done|].
  by apply respond_unexpected.
Qed.

Lemma respond_not_an_object p key code text data w :
  JSON_parse text = Some data →
  (∀ fields, data ≠ VObj fields) →
  code ≠ 429 →
  ∃ o, respond p key code text w = (Ok (o, single (VStr text)), w)
    ∧ (o = Malformed ∨ o = UnexpectedShape).
Proof.
  intros Hparse Hobj Hcode%Z.eqb_neq.
  unfold respond, parse_block, classify, JSON_parse_or_throw.
  rewrite Hparse, Hcode. run.
  destruct data as [| | | |s|elems|fields]; simpl; eauto.
  by destruct (Hobj fields).
Qed.

(** X7: a body that is JSON but not an object (null, a number, a text,
    an array) under a status other than 429 is returned verbatim, like a
    body that is not JSON at all. *)
Theorem json_body_that_is_no_object_is_returned_verbatim
    (a : RawArgs) (w : World) (code : Z) (text : string) (data : value) :
  responds a w code text →
  JSON_parse text = Some data →
  (∀ fields, data ≠ VObj fields) →
  code ≠ 429 →
  SCOPEGREEN a w = Ok (VArr [VArr [VStr text]])
  ∧ cache (SCOPEGREEN_run a w).2 = cache w.
Proof.
  intros Hresp Hparse Hobj Hcode.
  destruct (respond_not_an_object (normalize a) (cacheKey (normalize a))
              code text data (fetched a w) Hparse Hobj Hcode) as (o & Hr & _).
  apply (run_responded a w code text) in Hr; [|done].
  split; [by eapply SCOPEGREEN_of_run|]. by rewrite Hr.
Qed.

(** X8: under status 429, a body with a truthy [error.message] that has
    a text is answered with [Rate limit exceeded: ] and that message. *)
Theorem rate_limit_message_is_reported
    (a : RawArgs) (w : World) (text : string)
    (fields : list (string * value)) (m : value) :
  responds a w 429 text →
  JSON_parse text = Some (VObj fields) →
  truthy (own_property fields "error") = true →
  read (own_property fields "error") "message" = Ok m →
  truthy m = true →
  converts m →
  SCOPEGREEN_run a w =
  (Ok (RateLimited, VArr [VArr [VStr ("Rate limit exceeded: " +:+ ToString m)]]),
   fetched a w).
Proof.
  intros Hresp Hparse Herr Hm Ht Hconv.
  apply (run_responded a w 429 text); [done|].
  by eapply respond_rate_limited_message.
Qed.

Lemma respond_rate_limited_null p key text w :
  JSON_parse text = Some VNull →
  respond p key 429 text w = (Ok (RateLimited, single (VStr rate_limit_generic)), w).
Proof.
  intros Hparse. unfold respond, rate_limit_block, JSON_parse_or_throw.
  rewrite Hparse. reflexivity.
Qed.

(** X9: under status 429, a body that is not JSON, or is the JSON
    [null], is answered with the generic rate-limit message: the inner
    [catch] takes the error of the parse as well as that of reading
    [error] of null. *)
Theorem rate_limit_with_unusable_body_gives_generic_message
    (a : RawArgs) (w : World) (text : string) :
  responds a w 429 text →
  JSON_parse text = None ∨ JSON_parse text = Some VNull →
  SCOPEGREEN_run a w =
  (Ok (RateLimited, VArr [VArr [VStr "Rate limit exceeded: Please try again later."]]),
   fetched a w).
Proof.
  intros Hresp Hparse.
  apply (run_responded a w 429 text); [done|].
  destruct Hparse; [by apply respond_rate_limited_unparsable
                   |by apply respond_rate_limited_null].
Qed.

(** X10: when the fetch raises an error whose text contains neither
    [timeout] nor [execution time], the call returns the one cell
    [Error: ] followed by that text; the request was sent once and nothing
    is cached. *)
Theorem fetch_failure_becomes_an_error_row
    (a : RawArgs) (w : World) (description : string) :
  cached (cacheKey (normalize a)) w = None →
  network w (fullUrl (normalize a)) = FetchFails description →
  includes "timeout" description = false →
  includes "execution time" description = false →
  SCOPEGREEN_run a w =
  (Ok (GenericFailure, VArr [VArr [VStr ("Error: " +:+ description)]]), fetched a w).
Proof.
  intros Hc Hnet Ht He. rewrite SCOPEGREEN_run_unfold. cbv zeta. rewrite Hc.
  unfold try_catch. rewrite try_block_run. simpl. rewrite Hnet.
  unfold catch_block. simpl. by rewrite Ht, He.
Qed.

(** *** The loop over the ranks *)

Lemma respond_matches p key code text fields matches w :
  JSON_parse text = Some (VObj fields) →
  success_body fields matches →
  respond p key code text w =
  success_block p key (VObj fields) (VArr matches) w.
Proof.
  intros Hparse (Herr & Hmsg & Hms & Hne).
  unfold respond, rate_limit_block, parse_block, classify, JSON_parse_or_throw.
  rewrite Hparse. run. simpl. rewrite Herr, Hmsg, Hms. simpl.
  rewrite number_compare_of_Z.
  assert ((0 ?= Z.of_nat (length matches)) = Lt) as ->.
  { apply Z.compare_lt_iff. destruct matches; [done|simpl; lia]. }
  by destruct (code =? 429).
Qed.

(** An exception of the formatting goes to the outer [catch], and nothing
    is cached. *)
Lemma run_format_raised a w fields matches e :
  answers a w fields →
  success_body fields matches →
  format_matches (numMatches (normalize a)) (VArr matches) = Throw e →
  SCOPEGREEN_run a w = (Ok (caught e), fetched a w).
Proof.
  intros (Hc & code & text & Hnet & Hparse) Hbody Hfmt.
  apply (run_raised a w code text); [done|].
  rewrite (respond_matches _ _ _ _ _ _ _ Hparse Hbody), success_block_run.
  by rewrite Hfmt.
Qed.

Lemma loop_from_step turns bound matches i result :
  loop_from (S turns) bound matches i result =
  if x_le (Finite (of_Z i)) bound then
    result' ← loop_body matches i result;
    loop_from turns bound matches (i + 1) result'
  else Ok result.
Proof. reflexivity. Qed.

(** The first turn, when the first element has rank 1. *)
Lemma format_matches_first_rank n f rest r :
  1 ≤ n →
  strict_eq_int (own_property f "rank") 1 = true →
  match_cells 1 (VObj f) = r →
  format_matches (Some n) (VArr (VObj f :: rest)) =
  match r with
  | Ok c => loop_from (S (length rest))
              (Finite (of_Z (Z.min n (Z.of_nat (S (length rest))))))
              (VArr (VObj f :: rest)) 2 c
  | Throw e => Throw e
  end.
Proof.
  intros Hn Hr Hc. rewrite format_matches_array. cbn [int_number].
  rewrite Math_min_of_Z. cbn [length]. rewrite loop_from_step, x_le_of_Z.
  assert ((1 <=? Z.min n (Z.of_nat (S (length rest)))) = true) as ->
    by (apply Z.leb_le; lia).
  unfold loop_body, matches_find. cbv [mbind Res_bind].
  rewrite (find_rank_here f) by done. cbn [truthy]. rewrite Hc.
  by destruct r.
Qed.

(** X11: when the first element of [matches] has rank 1, a
    [matched_name] that has a text (line 144 converts it first) and no
    [metric] (undefined or null), reading [metric.value] raises a TypeError
    that the outer [catch] turns into a row of one cell; nothing is cached,
    although the body passed the test for matches. *)
Theorem match_without_metric_gives_an_error_row
    (a : RawArgs) (w : World) (fields f : list (string * value))
    (rest : list value) (n : Z) :
  answers a w fields →
  success_body fields (VObj f :: rest) →
  strict_eq_int (own_property f "rank") 1 = true →
  converts (own_property f "matched_name") →
  own_property f "metric" = VUndefined ∨ own_property f "metric" = VNull →
  numMatches (normalize a) = Some n → 1 ≤ n →
  SCOPEGREEN_run a w =
  (Ok (caught (TypeError (ReadOfNullish (own_property f "metric") "value"))),
   fetched a w).
Proof.
  intros Hans Hbody Hr Hname Hm Hn Hle.
  apply (run_format_raised a w fields (VObj f :: rest)); [done..|].
  rewrite Hn.
  rewrite (format_matches_first_rank n f rest
             (Throw (TypeError (ReadOfNullish (own_property f "metric") "value"))));
    [done..|].
  unfold match_cells, ToString_or_throw. cbv [mbind Res_bind]. cbn [read].
  rewrite Hname. by destruct Hm as [-> | ->].
Qed.

(** X12: with one match asked for (the default), and a first element of
    [matches] that has rank 1, a [metric] object and a [matched_name] that
    has a text, the row is the eight cells of that element and the
    explanation, nine cells, whatever the rest of the array holds: the
    search stops at the first element of the rank, and the loop at 1. *)
Theorem one_match_asked_gives_first_of_rank_one
    (a : RawArgs) (w : World) (fields f g : list (string * value))
    (rest : list value) :
  answers a w fields →
  success_body fields (VObj f :: rest) →
  ranked 1 f g →
  converts (own_property f "matched_name") →
  numMatches (normalize a) = Some 1 →
  SCOPEGREEN a w =
  Ok (VArr [VArr [
    VStr ("Match 1: " +:+ ToString (own_property f "matched_name"));
    own_property g "value";
    own_property g "unit";
    js_or (own_property f "year") (VStr "");
    js_or (own_property f "geography") (VStr "");
    js_or (own_property f "source") (VStr "");
    js_or (own_property f "source_link") (VStr "");
    js_or (own_property f "conversion_info") (VStr "");
    explanation_cell fields ]]).
Proof.
  intros Hans Hbody [Hr Hg] Hname Hn.
  eapply SCOPEGREEN_of_run.
  rewrite (run_success a w fields (VObj f :: rest) _ Hans Hbody
             ltac:(rewrite Hn;
                   rewrite (format_matches_first_rank 1 f rest _ ltac:(lia) Hr
                              (match_cells_ranked 1 f g Hg Hname));
                   rewrite Z.min_l, loop_from_step, x_le_of_Z by lia;
                   reflexivity)).
  reflexivity.
Qed.

Lemma find_rank_well_formed elems i :
  Forall well_formed elems →
  find_rank elems i = Ok (default VUndefined (List.find (has_rank i) elems))
  ∧ ∀ m, List.find (has_rank i) elems = Some m → well_formed m.
Proof.
  induction 1 as [|m rest (f & g & -> & Hg & Hname) _ [IH1 IH2]]; [done|].
  cbn [find_rank List.find has_rank read]. cbv [mbind Res_bind].
  destruct (strict_eq_int (own_property f "rank") i).
  - split; [done|]. intros ? [= <-]. by exists f, g.
  - done.
Qed.

Lemma loop_body_well_formed elems i result :
  Forall well_formed elems →
  loop_body (VArr elems) i result = Ok (result ++ shown elems i).
Proof.
  intros Hwf. destruct (find_rank_well_formed elems i Hwf) as [Hfind Hm].
  unfold loop_body, matches_find, shown. rewrite Hfind. cbv [mbind Res_bind].
  destruct (List.find (has_rank i) elems) as [m|]; simpl.
  - destruct (Hm m eq_refl) as (f & g & -> & Hg & Hname).
    cbn [truthy]. rewrite (match_cells_ranked i f g Hg Hname).
    unfold cells. by rewrite Hg.
  - by rewrite app_nil_r.
Qed.

Lemma loop_from_well_formed elems b :
  Forall well_formed elems →
  ∀ turns i result,
    b - i + 1 ≤ Z.of_nat turns →
    loop_from turns (Finite (of_Z b)) (VArr elems) i result =
    Ok (result ++ flat_map (shown elems) (seqZ i (b - i + 1))).
Proof.
  intros Hwf. induction turns as [|turns IH]; intros i result Hle.
  - rewrite seqZ_nil by lia. simpl. by rewrite app_nil_r.
  - cbn [loop_from]. rewrite x_le_of_Z.
    destruct (Z.leb_spec i b).
    + rewrite loop_body_well_formed by done. cbv [mbind Res_bind].
      rewrite IH by lia. rewrite (seqZ_cons i) by lia. cbn [flat_map].
      rewrite <- app_assoc.
      replace (b - (i + 1) + 1) with (Z.pred (b - i + 1)) by lia.
      by replace (i + 1) with (Z.succ i) by lia.
    + rewrite seqZ_nil by lia. simpl. by rewrite app_nil_r.
Qed.

Lemma format_matches_well_formed n elems :
  Forall well_formed elems →
  format_matches (Some n) (VArr elems) = Ok (formatted n elems).
Proof.
  intros Hwf. rewrite format_matches_array. cbn [int_number].
  rewrite Math_min_of_Z, (loop_from_well_formed elems _ Hwf) by lia.
  unfold formatted, ranks_visited. simpl. do 3 f_equal. lia.
Qed.

Lemma cells_length i m : well_formed m → length (cells i m) = 8%nat.
Proof. intros (f & g & -> & Hg & _). unfold cells. by rewrite Hg. Qed.

Lemma formatted_length elems ranks :
  Forall well_formed elems →
  length (flat_map (shown elems) ranks) =
  (8 * length (List.filter (λ i, existsb (has_rank i) elems) ranks))%nat.
Proof.
  intros Hwf. induction ranks as [|i ranks IH]; [done|].
  cbn [flat_map List.filter]. rewrite length_app, IH.
  destruct (find_rank_well_formed elems i Hwf) as [_ Hm].
  unfold shown.
  destruct (List.find (has_rank i) elems) as [m|] eqn:Hfind.
  - rewrite (cells_length i m) by eauto.
    assert (existsb (has_rank i) elems = true) as ->.
    { apply existsb_exists. exists m. by apply find_some in Hfind. }
    simpl. lia.
  - assert (existsb (has_rank i) elems = false) as ->.
    { apply not_true_is_false. intros (m & Hin & Hr)%existsb_exists.
      by rewrite (find_none _ _ Hfind m Hin) in Hr. }
    done.
Qed.

(** X13: when every match is an object with a [metric] object and a
    [matched_name] that has a text, the row is built rank by rank, for the ranks 1 up to the smaller of
    [numMatches] and the number of matches: the eight cells of the first
    match that carries the rank, nothing for a rank no match carries; then
    the explanation.  So the row has 8 cells for each of these ranks that
    is carried, and one more. *)
Theorem row_lists_the_ranks_in_order
    (a : RawArgs) (w : World) (fields : list (string * value))
    (matches : list value) (n : Z) :
  answers a w fields →
  success_body fields matches →
  Forall well_formed matches →
  numMatches (normalize a) = Some n →
  SCOPEGREEN a w = Ok (VArr [VArr (formatted n matches ++ [explanation_cell fields])])
  ∧ length (formatted n matches ++ [explanation_cell fields])
    = (8 * length (ranks_shown n matches) + 1)%nat
  ∧ (length (ranks_shown n matches) ≤ length matches)%nat
  ∧ Z.of_nat (length (ranks_shown n matches)) ≤ Z.max 0 n.
Proof.
  intros Hans Hbody Hwf Hn.
  assert (Hvisited : (length (ranks_shown n matches)
                      ≤ length (ranks_visited n matches))%nat).
  { unfold ranks_shown. apply filter_length_le. }
  assert (Hlen : length (ranks_visited n matches)
                 = Z.to_nat (Z.min n (Z.of_nat (length matches)))).
  { unfold ranks_visited. apply length_seqZ. }
  split_and!.
  - eapply SCOPEGREEN_of_run.
    by rewrite (run_success a w fields matches _ Hans Hbody
                  ltac:(rewrite Hn; by apply format_matches_well_formed)).
  - rewrite length_app. unfold formatted, ranks_shown.
    rewrite formatted_length by done. simpl. lia.
  - lia.
  - lia.
Qed.

Lemma match_cells_length i m c : match_cells i m = Ok c → length c = 8%nat.
Proof.
  unfold match_cells. cbv [mbind Res_bind].
  repeat match goal with
  | |- context [match ?x with Ok _ => _ | Throw _ => _ end] => destruct x; [|done]
  end.
  by intros [= <-].
Qed.

(** The row grows by eight cells a turn or not at all, over at most as
    many turns as there are ranks up to the bound. *)
Lemma loop_from_length bound matches z :
  (∀ j, x_le (Finite (of_Z j)) bound = true → j ≤ z) →
  ∀ turns i result c,
    loop_from turns bound matches i result = Ok c →
    ∃ k, length c = (length result + 8 * k)%nat ∧ Z.of_nat k ≤ Z.max 0 (z - i + 1).
Proof.
  intros Hbound. induction turns as [|turns IH]; intros i result c.
  - intros [= <-]. exists 0%nat. lia.
  - cbn [loop_from]. destruct (x_le (Finite (of_Z i)) bound) eqn:Hle.
    + apply Hbound in Hle. unfold loop_body. cbv [mbind Res_bind].
      destruct (matches_find matches i) as [m|]; [|done].
      destruct (truthy m).
      * destruct (match_cells i m) as [c1|] eqn:Hc1; [|done].
        intros (k & Hk & Hz)%IH. apply match_cells_length in Hc1.
        exists (S k). rewrite Hk, length_app. lia.
      * intros (k & Hk & Hz)%IH. exists k. lia.
    + intros [= <-]. exists 0%nat. lia.
Qed.

Lemma x_le_Math_min j z y :
  x_le (Finite (of_Z j)) (Math_min (Finite (of_Z z)) y) = true → j ≤ z.
Proof.
  assert (Hz : x_le (Finite (of_Z j)) (Finite (of_Z z)) = true → j ≤ z).
  { rewrite x_le_of_Z. by intros ?%Z.leb_le. }
  destruct y as [|[]|[m e]]; [done|done|done|].
  unfold Math_min. cbn [x_lt].
  destruct (number_compare (Dec m e) (of_Z z)) eqn:Hmz; [done| |done].
  cbn [x_le x_lt].
  destruct (number_compare (Dec m e) (of_Z j)) eqn:Hmj; [|done|].
  - intros _. clear Hz. unfold number_compare in *. simpl in *.
    assert (0 < 10 ^ (0 - Z.min e 0)) by (apply Z.pow_pos_nonneg; lia).
    apply Z.compare_eq in Hmj. apply -> Z.compare_lt_iff in Hmz.
    set (k := 10 ^ (0 - Z.min e 0)) in *. set (x := m * 10 ^ (e - Z.min e 0)) in *.
    clearbody k x. nia.
  - intros _. clear Hz. unfold number_compare in *. simpl in *.
    assert (0 < 10 ^ (0 - Z.min e 0)) by (apply Z.pow_pos_nonneg; lia).
    apply -> Z.compare_gt_iff in Hmj. apply -> Z.compare_lt_iff in Hmz.
    set (k := 10 ^ (0 - Z.min e 0)) in *. set (x := m * 10 ^ (e - Z.min e 0)) in *.
    clearbody k x. nia.
Qed.

Lemma format_matches_length n matches c :
  format_matches n matches = Ok c →
  ∃ k, length c = (8 * k)%nat ∧
       match n with Some z => Z.of_nat k ≤ Z.max 0 z | None => k = 0%nat end.
Proof.
  unfold format_matches. cbv [mbind Res_bind].
  destruct (read matches "length") as [length_|]; [|done].
  destruct (ToNumber_or_throw length_) as [length_number|]; [|done].
  destruct n as [z|]; cbn [int_number].
  - intros Hloop.
    destruct (loop_from_length _ matches z (λ j, x_le_Math_min j z _) _ _ _ _ Hloop)
      as (k & Hk & Hz).
    exists k. simpl in Hk. split; lia.
  - cbn [Math_min loop_from x_le]. intros [= <-]. by exists 0%nat.
Qed.

(** The success return gives a formatted row and the explanation cell. *)
Lemma respond_success_row p key code text w v w' :
  respond p key code text w = (Ok (Success, v), w') →
  ∃ matches c cell,
    format_matches (numMatches p) matches = Ok c ∧ v = VArr [VArr (c ++ [cell])].
Proof.
  intros (fields & c & _ & _ & _ & _ & Hfmt & ->)%respond_success_inv. eauto.
Qed.

(** X14: every row of the success return has 8 k + 1 cells, where k is
    at most [numMatches], and 0 when [numMatches] is NaN or not positive:
    the row never shows more matches than were asked for. *)
Theorem success_row_has_at_most_numMatches_blocks
    (a : RawArgs) (w : World) (v : value) :
  (SCOPEGREEN_run a w).1 = Ok (Success, v) →
  ∃ row k, v = VArr [VArr row] ∧ length row = (8 * k + 1)%nat ∧
    match numMatches (normalize a) with
    | Some z => Z.of_nat k ≤ Z.max 0 z
    | None => k = 0%nat
    end.
Proof.
  rewrite SCOPEGREEN_run_unfold. cbv zeta.
  destruct (cached _ w); [done|].
  unfold try_catch. rewrite try_block_run. simpl.
  assert (Hcatch : ∀ e w1, (catch_block e w1).1 ≠ Ok (Success, v)).
  { intros e w1. unfold catch_block. by destruct (_ || _). }
  destruct (network w _) as [code text|d]; [|by intros ?%Hcatch].
  destruct (respond _ _ code text _) as [[r|e] w1] eqn:Hr; [|by intros ?%Hcatch].
  intros [= ->].
  apply respond_success_row in Hr as (matches & c & cell & Hfmt & ->).
  apply format_matches_length in Hfmt as (k & Hk & Hz).
  exists (c ++ [cell]), k. rewrite length_app. simpl. split_and!; [done|lia|done].
Qed.

(** *** Calls and the cache *)

(** X15: the events of a call are, in this order: the read of the cache;
    then, unless it was a hit, one fetch of the URL; then, on the success
    return only, one write of the cache.  The call never fetches twice and
    never fetches after a hit. *)
Theorem events_of_a_call (a : RawArgs) (w : World) :
  ∃ o v w', SCOPEGREEN_run a w = (Ok (o, v), w')
    ∧ new_events w w' = events_of a o v
    ∧ network w' = network w.
Proof.
  rewrite SCOPEGREEN_run_unfold. cbv zeta.
  set (key := cacheKey (normalize a)).
  destruct (cached key w) as [v|].
  - eexists _, _, _. split; [reflexivity|]. by rewrite new_events_record.
  - pose proof (network_path_effect (normalize a) key (record (CacheGet key) w)) as Heff.
    cbv zeta in Heff.
    destruct (try_catch _ _ _) as [[[o v]|e] w']; [|done].
    eexists _, _, _. split; [reflexivity|].
    assert (Hev : ∀ evs, trace w' = trace w ++ evs → new_events w w' = evs).
    { intros evs Heq. unfold new_events. by rewrite Heq, drop_app_length. }
    destruct o; destruct Heff as [Hrow Hw'];
      lazymatch type of Hw' with
      | _ ∧ _ =>
          destruct Hw' as [-> ?]; split; [|done];
          apply Hev; simpl; by rewrite <- app_assoc
      | _ => idtac
      end.
    subst w'. split.
    + apply Hev. rewrite trace_after_put. simpl. by rewrite <- !app_assoc.
    + unfold after_put. by destruct (put_fault _).
Qed.

(** X16: what a call returns depends on the world only through the cache
    entry under its own key and the answer of the network to its own URL:
    other entries, earlier events and a failing [cache.put] change
    nothing. *)
Theorem result_depends_on_own_entry_and_answer (a : RawArgs) (w1 w2 : World) :
  cache w1 !! cacheKey (normalize a) = cache w2 !! cacheKey (normalize a) →
  network w1 (fullUrl (normalize a)) = network w2 (fullUrl (normalize a)) →
  (SCOPEGREEN_run a w1).1 = (SCOPEGREEN_run a w2).1.
Proof.
  intros Hcache Hnet. rewrite !SCOPEGREEN_run_unfold. cbv zeta.
  set (key := cacheKey (normalize a)) in *.
  assert (cached key w1 = cached key w2) as -> by (unfold cached; by rewrite Hcache).
  destruct (cached key w2); [done|].
  unfold try_catch. rewrite !try_block_run. simpl. rewrite Hnet.
  destruct (network w2 _) as [code text|d];
    [|unfold catch_block; by destruct (_ || _)].
  match goal with
  | |- context [respond ?p ?k ?c ?t (record ?ev (record ?ev' w1))] =>
      pose proof (respond_result p k c t (record ev (record ev' w1))
                    (record ev (record ev' w2))) as Hr
  end.
  destruct (respond _ _ _ _ (record _ (record _ w1))) as [[[o1 v1]|e1] w1'];
    destruct (respond _ _ _ _ (record _ (record _ w2))) as [[[o2 v2]|e2] w2'];
    simplify_eq/=; [done|].
  unfold catch_block. by destruct (_ || _).
Qed.

(** X17: after a successful call whose [cache.put] did not fail, a call
    whose arguments give the same cache key (the same arguments, say)
    returns the same table from the cache without fetching, whatever the
    network would now answer, as long as the entry is there and
    [JSON.parse] reads back what [JSON.stringify] wrote. *)
Theorem call_with_the_same_key_is_served_from_the_cache
    (a b : RawArgs) (w : World) (v : value) (w2 : World) :
  (SCOPEGREEN_run a w).1 = Ok (Success, v) →
  put_fault w = None →
  JSON_parse (JSON_stringify v) = Some v →
  cacheKey (normalize b) = cacheKey (normalize a) →
  cache w2 !! cacheKey (normalize a)
    = cache (SCOPEGREEN_run a w).2 !! cacheKey (normalize a) →
  SCOPEGREEN_run b w2 =
  (Ok (CacheHit, v), record (CacheGet (cacheKey (normalize a))) w2).
Proof.
  set (key := cacheKey (normalize a)).
  intros Hrun Hput Hround Hkey Hentry.
  assert (Hstored : cache (SCOPEGREEN_run a w).2 !! key = Some (JSON_stringify v, 120)).
  { rewrite SCOPEGREEN_run_unfold in Hrun |- *. cbv zeta in *. fold key in Hrun |- *.
    destruct (cached key w); [done|].
    pose proof (network_path_effect (normalize a) key (record (CacheGet key) w)) as Heff.
    cbv zeta in Heff.
    destruct (try_catch _ _ _) as [[[o v']|e] w']; [|done].
    simpl in Hrun. injection Hrun as -> ->. destruct Heff as [_ ->].
    simpl. rewrite cache_after_put. simpl. rewrite Hput. apply lookup_insert_eq. }
  rewrite SCOPEGREEN_run_unfold. cbv zeta. rewrite Hkey.
  assert (cached key w2 = Some v) as ->; [|done].
  unfold cached. rewrite Hentry, Hstored.
  destruct (nonempty (JSON_stringify v)) eqn:Hne; [done|].
  apply negb_false_iff, String.eqb_eq in Hne. rewrite Hne in Hround.
  by rewrite JSON_parse_empty in Hround.
Qed.

(** What a call returns on the network path, from what [respond] makes
    of the response. *)
Lemma run_result_of_respond a w code text :
  responds a w code text →
  (SCOPEGREEN_run a w).1 =
  match (respond (normalize a) (cacheKey (normalize a)) code text (fetched a w)).1 with
  | Ok r => Ok r
  | Throw e => Ok (caught e)
  end.
Proof.
  intros [Hc Hnet]. rewrite SCOPEGREEN_run_unfold. cbv zeta. rewrite Hc.
  unfold try_catch. rewrite try_block_run. simpl. rewrite Hnet.
  unfold fetched.
  destruct (respond _ _ _ _ _) as [[r|e] w']; [done|].
  by rewrite catch_block_caught.
Qed.

Lemma respond_status p key code1 code2 text w :
  code1 ≠ 429 → code2 ≠ 429 →
  respond p key code1 text w = respond p key code2 text w.
Proof.
  intros H1%Z.eqb_neq H2%Z.eqb_neq. unfold respond. by rewrite H1, H2.
Qed.

(** X20: the status code is looked at for one thing only, whether it is
    429: two responses with the same body and any other two status codes
    (200 and 500, say) get the same return, the success return
    included. *)
Theorem status_other_than_429_is_ignored
    (a : RawArgs) (w1 w2 : World) (code1 code2 : Z) (text : string) :
  responds a w1 code1 text →
  responds a w2 code2 text →
  code1 ≠ 429 → code2 ≠ 429 →
  (SCOPEGREEN_run a w1).1 = (SCOPEGREEN_run a w2).1.
Proof.
  intros Hr1 Hr2 H1 H2.
  rewrite (run_result_of_respond a w1 code1 text Hr1).
  rewrite (run_result_of_respond a w2 code2 text Hr2).
  rewrite (respond_status _ _ code1 code2) by done.
  by rewrite (respond_result _ _ _ _ (fetched a w1) (fetched a w2)).
Qed.

Lemma respond_failure_cell p key code text w :
  match respond p key code text w with
  | (Ok (Success, _), _) => True
  | (Ok (_, v), _) => ∃ s, v = single (VStr s)
  | (Throw _, _) => True
  end.
Proof.
  unfold respond, rate_limit_block, parse_block, classify, no_match_message.
  branches; try done; eauto.
Qed.

(** X18: every return but the cache hit and the success return gives a
    table of one row of one cell, and the cell is a text. *)
Theorem failure_rows_are_one_text_cell (a : RawArgs) (w : World) (o : Outcome) (v : value) :
  (SCOPEGREEN_run a w).1 = Ok (o, v) →
  o ≠ CacheHit → o ≠ Success →
  ∃ s, v = VArr [VArr [VStr s]].
Proof.
  rewrite SCOPEGREEN_run_unfold. cbv zeta.
  destruct (cached _ w); [by intros [= <- _]|].
  unfold try_catch. rewrite try_block_run. simpl.
  assert (Hcatch : ∀ e w1, (catch_block e w1).1 = Ok (o, v) → ∃ s, v = single (VStr s)).
  { intros e w1. rewrite catch_block_caught. unfold caught.
    destruct (_ || _); intros [= <- <-]; eauto. }
  destruct (network w _) as [code text|d]; [|by intros ?%Hcatch].
  match goal with
  | |- context [respond ?p ?k ?c ?t ?w1] => pose proof (respond_failure_cell p k c t w1) as Hcell
  end.
  destruct (respond _ _ code text _) as [[[o1 v1]|e] w1]; [|by intros ?%Hcatch].
  intros [= -> ->] _ Ho. by destruct o.
Qed.

(** X19: when [numMatches] is an integer that is 0 or negative (the text
    [0], say: the number 0 is falsy and gives the default 1), a success
    body yields a row of one cell, the explanation or the empty string,
    whatever the matches are. *)
Theorem nonpositive_numMatches_gives_one_cell
    (a : RawArgs) (w : World) (fields : list (string * value))
    (matches : list value) (n : Z) :
  answers a w fields →
  success_body fields matches →
  numMatches (normalize a) = Some n → n ≤ 0 →
  SCOPEGREEN a w = Ok (VArr [VArr [explanation_cell fields]]).
Proof.
  intros Hans Hbody Hn Hle.
  eapply SCOPEGREEN_of_run.
  rewrite (run_success a w fields matches [] Hans Hbody); [reflexivity|].
  rewrite Hn, format_matches_array. cbn [int_number].
  rewrite Math_min_of_Z. cbn [loop_from]. rewrite x_le_of_Z.
  by assert ((1 <=? Z.min n (Z.of_nat (length matches))) = false) as ->
    by (apply Z.leb_gt; lia).
Qed.

End Theory.

(** *** The cache key *)

Lemma includes_delimiter_cons c s :
  includes "_" (String c s) = Ascii.eqb "_" c || includes "_" s.
Proof.
  cbn [includes String.prefix].
  destruct (ascii_dec "_" c) as [<-|Hne].
  - by destruct s.
  - by apply Ascii.eqb_neq in Hne as ->.
Qed.

Lemma delimiter_free_cons c s :
  delimiter_free (String c s) ↔ c ≠ "_"%char ∧ delimiter_free s.
Proof.
  unfold delimiter_free. rewrite includes_delimiter_cons, orb_false_iff, Ascii.eqb_neq.
  intuition congruence.
Qed.

(** A text is cut at its first underscore in one way only. *)
Lemma split_at_delimiter s1 s2 r1 r2 :
  delimiter_free s1 → delimiter_free s2 →
  s1 +:+ "_" +:+ r1 = s2 +:+ "_" +:+ r2 → s1 = s2 ∧ r1 = r2.
Proof.
  revert s2. induction s1 as [|c s1 IH]; intros [|d s2] H1 H2 Heq;
    simplify_eq/=.
  - done.
  - apply delimiter_free_cons in H2 as [? _]. done.
  - apply delimiter_free_cons in H1 as [? _]. done.
  - apply delimiter_free_cons in H1 as [_ H1].
    apply delimiter_free_cons in H2 as [_ H2].
    destruct (IH s2 H1 H2) as [-> ->]; done.
Qed.

Lemma pretty_N_go_numeric x s : numeric s = true → numeric (pretty_N_go x s) = true.
Proof.
  revert s. induction (N.lt_wf_0 x) as [x _ IH]; intros s Hs.
  assert (x = 0 ∨ 0 < x)%N as [->|?] by lia.
  - by rewrite pretty_N_go_0.
  - rewrite pretty_N_go_step by done. apply IH.
    { by apply N.div_lt. }
    cbn [numeric]. rewrite Hs, andb_true_r.
    generalize (x `mod` 10)%N. intros n. unfold pretty_N_char.
    by repeat case_match.
Qed.

Lemma pretty_Z_numeric (z : Z) : numeric (pretty z) = true.
Proof.
  destruct z as [|x|x]; [done|..].
  - change (pretty (Z.pos x)) with (pretty_N_go (N.pos x) "").
    by apply pretty_N_go_numeric.
  - change (pretty (Z.neg x)) with (String "-" (pretty_N_go (N.pos x) "")).
    cbn [numeric]. by rewrite pretty_N_go_numeric.
Qed.

Lemma numeric_delimiter_free s : numeric s = true → delimiter_free s.
Proof.
  induction s as [|c s IH]; [done|]. simpl. intros [Hc Hs]%andb_true_iff.
  apply delimiter_free_cons. split; [|by apply IH].
  intros ->. done.
Qed.

Lemma int_toString_delimiter_free n : delimiter_free (int_toString n).
Proof. destruct n; [|done]. apply numeric_delimiter_free, pretty_Z_numeric. Qed.

Lemma int_toString_inj n m : int_toString n = int_toString m → n = m.
Proof.
  destruct n as [x|], m as [y|]; simpl; intros Heq.
  - f_equal. by apply (inj pretty).
  - pose proof (pretty_Z_numeric x) as Hx. by rewrite Heq in Hx.
  - pose proof (pretty_Z_numeric y) as Hy. by rewrite <- Heq in Hy.
  - done.
Qed.

Lemma bool_toString_delimiter_free b : delimiter_free (bool_toString b).
Proof. by destruct b. Qed.

Lemma bool_toString_inj b c : bool_toString b = bool_toString c → b = c.
Proof. by destruct b, c. Qed.

(** C2, as the code has it: the key is a function of the nine prepared
    parameters, so equal tuples give equal keys; and two tuples in which no
    field but the last, [unit], contains an underscore give equal keys only
    when they are equal. *)
Theorem cacheKey_injective_without_delimiter (p q : QueryParameters) :
  delimiter_free_fields p → delimiter_free_fields q →
  (cacheKey p = cacheKey q ↔ p = q).
Proof.
  intros (Hp1 & Hp2 & Hp3 & Hp4 & Hp5 & Hp6) (Hq1 & Hq2 & Hq3 & Hq4 & Hq5 & Hq6).
  split; [|by intros ->].
  unfold cacheKey. intros Heq. simplify_eq/=.
  repeat match goal with
  | H : _ +:+ "_" +:+ _ = _ +:+ "_" +:+ _ |- _ =>
      apply split_at_delimiter in H as [? ?];
        [|by auto using int_toString_delimiter_free, bool_toString_delimiter_free..]
  end.
  destruct p, q; simpl in *.
  f_equal; auto using int_toString_inj, bool_toString_inj.
Qed.

(** ** The function at work, on the reference runtime *)

#[local] Existing Instance reference_runtime.

(** C1 at the failing input: status 429 with the body [{}], which parses
    and has no [error.message].  The rate-limit block returns nothing, the
    body is classified like any other, and the raw text comes back instead
    of a rate-limit message. *)
Theorem rate_limit_without_message_falls_through :
  JSON_parse "{}" = Some (VObj [])
  ∧ (SCOPEGREEN_run (call (VStr "steel") VUndefined (VNum (of_Z 2)))
       (world ∅ (Response 429 "{}"))).1
    = Ok (UnexpectedShape, VArr [VArr [VStr "{}"]])
  ∧ VStr "{}" ≠ VStr rate_limit_generic.
Proof. split_and!; [by vm_compute..|done]. Qed.

(** The sibling returns of the same block: a body with [error.message],
    and a body that is not JSON. *)
Example rate_limit_with_message :
  (SCOPEGREEN_run (call (VStr "steel") VUndefined (VNum (of_Z 2)))
     (world ∅ (Response 429 (json "{'error':{'message':'slow down'}}")))).1
  = Ok (RateLimited, VArr [VArr [VStr "Rate limit exceeded: slow down"]]).
Proof. by vm_compute. Qed.

Example rate_limit_with_unparsable_body :
  (SCOPEGREEN_run (call (VStr "steel") VUndefined (VNum (of_Z 2)))
     (world ∅ (Response 429 "Too Many Requests"))).1
  = Ok (RateLimited, VArr [VArr [VStr "Rate limit exceeded: Please try again later."]]).
Proof. by vm_compute. Qed.

(** A message of no match comes back as it is. *)
Example no_match_message_is_returned :
  (SCOPEGREEN_run (call (VStr "steel") VUndefined (VNum (of_Z 2)))
     (world ∅ (Response 200 (json "{'message':'No good match was found for X'}")))).1
  = Ok (NoMatch, VArr [VArr [VStr "No good match was found for X"]]).
Proof. by vm_compute. Qed.

(** The events of a successful call, and the entry it leaves in the
    cache. *)
Example success_writes_the_cache :
  let w' := (SCOPEGREEN_run (call (VStr "steel") VUndefined (VNum (of_Z 2)))
               (world ∅ (Response 200 two_matches_text))).2 in
  let row := json "[['Match 1: Steel',2.5,'kg CO2e/kg',2020,'','','','','Match 2: Steel, low-alloyed',1.7,'kg CO2e/kg','','EU','','','','Closest products']]" in
  trace w' =
    [ CacheGet steel_key;
      Fetch (API_BASE_URL +:+ "?item_name=steel&metric=Carbon%20footprint&mode=lite&web_mode=false&num_matches=2&not_english=false");
      CachePut steel_key row 120 ]
  ∧ cache w' !! steel_key = Some (row, 120).
Proof. split; by vm_compute. Qed.

(** C2 fails as stated: the prepared parameters of the calls
    [SCOPEGREEN("a_")] and [SCOPEGREEN("a", "_")] differ, and their keys
    are the same. *)
Lemma cacheKey_collision :
  normalize (call (VStr "a_") VUndefined VUndefined)
    ≠ normalize (call (VStr "a") (VStr "_") VUndefined)
  ∧ cacheKey (normalize (call (VStr "a_") VUndefined VUndefined))
    = cacheKey (normalize (call (VStr "a") (VStr "_") VUndefined)).
Proof. split; [|by vm_compute]. vm_compute. discriminate. Qed.

(** Two calls that differ in [numMatches] only, with no underscore in any
    field: their keys differ. *)
Lemma cacheKey_injective_witness :
  let p := normalize (call (VStr "steel") VUndefined (VNum (of_Z 2))) in
  let q := normalize (call (VStr "steel") VUndefined (VNum (of_Z 3))) in
  delimiter_free_fields p ∧ delimiter_free_fields q
  ∧ p ≠ q ∧ cacheKey p ≠ cacheKey q.
Proof.
  assert (Hp : delimiter_free_fields
                 (normalize (call (VStr "steel") VUndefined (VNum (of_Z 2)))))
    by (by vm_compute).
  assert (Hq : delimiter_free_fields
                 (normalize (call (VStr "steel") VUndefined (VNum (of_Z 3)))))
    by (by vm_compute).
  assert (Hne : normalize (call (VStr "steel") VUndefined (VNum (of_Z 2)))
                ≠ normalize (call (VStr "steel") VUndefined (VNum (of_Z 3))))
    by (vm_compute; discriminate).
  split_and!; [done..|].
  intros Hkey. apply Hne.
  exact (proj1 (cacheKey_injective_without_delimiter _ _ Hp Hq) Hkey).
Defined.

(** C7 fails as stated: [SCOPEGREEN("steel", , , , , "0")] answered with
    a body whose [matches] is the text [abc].  There is no array of
    matches; the test of line 135 passes, the loop takes no turn, the
    success return is taken and the cache is written. *)
Lemma cache_written_without_matches_array :
  let a := call (VStr "steel") VUndefined (VStr "0") in
  let w := answering 200 text_for_matches_text in
  let key := "LCA_steel___Carbon footprint__0_lite_false_" in
  JSON_parse text_for_matches_text = Some (VObj text_for_matches)
  ∧ own_property text_for_matches "matches" = VStr "abc"
  ∧ cacheKey (normalize a) = key
  ∧ (SCOPEGREEN_run a w).1 = Ok (Success, VArr [VArr [VStr "e"]])
  ∧ List.filter is_put (new_events w (SCOPEGREEN_run a w).2)
    = [CachePut key (json "[['e']]") 120]
  ∧ cache w !! key = None
  ∧ cache (SCOPEGREEN_run a w).2 !! key = Some (json "[['e']]", 120).
Proof. split_and!; by vm_compute. Qed.

(** C3 fails as stated: three matches asked for and a success body with
    exactly two matches, ranked 1 and 3; the row has 9 cells, the eight of
    rank 1 and the explanation. *)
Lemma two_matches_ranked_1_and_3_give_nine_cells :
  let a := call (VStr "steel") VUndefined (VNum (of_Z 3)) in
  let w := world ∅ (Response 200 ranks_1_and_3_text) in
  numMatches (normalize a) = Some 3
  ∧ (∃ data m1 m2, JSON_parse ranks_1_and_3_text = Some data
       ∧ read data "matches" = Ok (VArr [m1; m2]))
  ∧ ∃ row, (SCOPEGREEN_run a w).1 = Ok (Success, VArr [VArr row])
      ∧ row = [ VStr "Match 1: Steel"; VNum (Dec 25 (-1)); VStr "kg CO2e/kg";
                VStr ""; VStr ""; VStr ""; VStr ""; VStr "";
                VStr "Closest products" ]
      ∧ length row = 9%nat ∧ length row ≠ 17%nat.
Proof.
  split_and!.
  - by vm_compute.
  - eexists _, _, _. split; vm_compute; reflexivity.
  - eexists. split_and!; [by vm_compute|reflexivity|reflexivity|].
    simpl. lia.
Qed.

(** The same call on a body whose two matches are ranked 2 and 1. *)
Lemma two_of_three_matches_witness :
  let a := call (VStr "steel") VUndefined (VNum (of_Z 3)) in
  let w := world ∅ (Response 200 two_matches_text) in
  answers a w two_matches
  ∧ success_body two_matches [VObj alloy; VObj steel]
  ∧ ranked 1 steel steel_metric ∧ ranked 2 alloy alloy_metric
  ∧ converts (own_property steel "matched_name")
  ∧ converts (own_property alloy "matched_name")
  ∧ numMatches (normalize a) = Some 3
  ∧ ∃ row, SCOPEGREEN a w = Ok (VArr [VArr row]) ∧ length row = 17%nat.
Proof.
  assert (Hans : answers (call (VStr "steel") VUndefined (VNum (of_Z 3)))
                   (world ∅ (Response 200 two_matches_text)) two_matches).
  { split; [by vm_compute|]. exists 200, two_matches_text.
    split; [reflexivity|by vm_compute]. }
  assert (Hbody : success_body two_matches [VObj alloy; VObj steel]).
  { by split_and!. }
  assert (H1 : ranked 1 steel steel_metric) by (by split).
  assert (H2 : ranked 2 alloy alloy_metric) by (by split).
  assert (Hn : numMatches (normalize (call (VStr "steel") VUndefined (VNum (of_Z 3))))
               = Some 3) by (by vm_compute).
  split_and!; [done..|].
  exact (two_of_three_matches_give_seventeen_cells _ _ _ _ _ _ _ _
           Hans Hbody (or_intror eq_refl) H1 H2 eq_refl eq_refl Hn).
Defined.

(** Two matches asked for, on the same body: the 17 cells. *)
Lemma two_ranked_matches_witness :
  let a := call (VStr "steel") VUndefined (VNum (of_Z 2)) in
  let w := world ∅ (Response 200 two_matches_text) in
  answers a w two_matches
  ∧ success_body two_matches [VObj alloy; VObj steel]
  ∧ ranked 1 steel steel_metric ∧ ranked 2 alloy alloy_metric
  ∧ converts (own_property steel "matched_name")
  ∧ converts (own_property alloy "matched_name")
  ∧ numMatches (normalize a) = Some 2
  ∧ SCOPEGREEN a w =
    Ok (VArr [VArr [
      VStr "Match 1: Steel"; VNum (Dec 25 (-1)); VStr "kg CO2e/kg";
      VNum (of_Z 2020); VStr ""; VStr ""; VStr ""; VStr "";
      VStr "Match 2: Steel, low-alloyed"; VNum (Dec 17 (-1)); VStr "kg CO2e/kg";
      VStr ""; VStr "EU"; VStr ""; VStr ""; VStr "";
      VStr "Closest products" ]]).
Proof.
  assert (Hans : answers (call (VStr "steel") VUndefined (VNum (of_Z 2)))
                   (world ∅ (Response 200 two_matches_text)) two_matches).
  { split; [by vm_compute|]. exists 200, two_matches_text.
    split; [reflexivity|by vm_compute]. }
  assert (Hbody : success_body two_matches [VObj alloy; VObj steel]).
  { by split_and!. }
  assert (H1 : ranked 1 steel steel_metric) by (by split).
  assert (H2 : ranked 2 alloy alloy_metric) by (by split).
  assert (Hn : numMatches (normalize (call (VStr "steel") VUndefined (VNum (of_Z 2))))
               = Some 2) by (by vm_compute).
  split_and!; [done..|].
  rewrite (proj1 (two_ranked_matches_give_seventeen_cells _ _ _ _ _ _ _ _
                    Hans Hbody (or_intror eq_refl) H1 H2 eq_refl eq_refl Hn)).
  by vm_compute.
Defined.

(** A gateway error page comes back as it is. *)
Lemma malformed_body_witness :
  let a := call (VStr "steel") VUndefined (VNum (of_Z 2)) in
  let w := world ∅ (Response 502 "<html>Bad Gateway</html>") in
  cached (cacheKey (normalize a)) w = None
  ∧ JSON_parse "<html>Bad Gateway</html>" = None
  ∧ SCOPEGREEN a w = Ok (VArr [VArr [VStr "<html>Bad Gateway</html>"]]).
Proof.
  split_and!; [by vm_compute..|].
  apply (malformed_body_is_returned_verbatim _ _ 502);
    [by vm_compute|by vm_compute|done|by vm_compute].
Defined.

(** A cached row is returned although the network is down; a cached text
    that is not JSON is passed over. *)
Lemma cache_hit_witness :
  let a := call (VStr "steel") VUndefined (VNum (of_Z 2)) in
  let hit := world {[ steel_key := (json "[['Match 1: Steel',2.5]]", 120) ]}
               (FetchFails "unreachable") in
  let stale := world {[ steel_key := ("[[", 120) ]} (Response 200 "{}") in
  cacheKey (normalize a) = steel_key
  ∧ (∃ w', SCOPEGREEN_run a hit =
             (Ok (CacheHit, VArr [VArr [VStr "Match 1: Steel"; VNum (Dec 25 (-1))]]), w')
       ∧ new_events hit w' = [CacheGet steel_key])
  ∧ (∃ o v w', SCOPEGREEN_run a stale = (Ok (o, v), w')
       ∧ o ≠ CacheHit
       ∧ Fetch (fullUrl (normalize a)) ∈ new_events stale w'
       ∧ (SCOPEGREEN_run a (evict (cacheKey (normalize a)) stale)).1 = Ok (o, v)).
Proof.
  split_and!; [by vm_compute|..].
  - refine (proj1 (cache_hit_returns_without_fetching
                     (call (VStr "steel") VUndefined (VNum (of_Z 2)))
                     (world {[ steel_key := (json "[['Match 1: Steel',2.5]]", 120) ]}
                        (FetchFails "unreachable"))
                     (json "[['Match 1: Steel',2.5]]") 120 _) _ _);
      by vm_compute.
  - refine (proj2 (cache_hit_returns_without_fetching
                     (call (VStr "steel") VUndefined (VNum (of_Z 2)))
                     (world {[ steel_key := ("[[", 120) ]} (Response 200 "{}"))
                     "[[" 120 _) _);
      by vm_compute.
Defined.

(** A fetch that times out. *)
Lemma timeout_error_witness :
  let a := call (VStr "steel") VUndefined (VNum (of_Z 2)) in
  let w := world ∅ (FetchFails "Exception: Request timeout") in
  includes "timeout" "Exception: Request timeout" = true
  ∧ ∃ w', SCOPEGREEN_run a w = (Ok (Timeout, VArr [VArr [VStr timed_out]]), w').
Proof.
  split; [by vm_compute|]. eexists.
  refine (timeout_error_becomes_a_message
            (call (VStr "steel") VUndefined (VNum (of_Z 2)))
            (world ∅ (FetchFails "Exception: Request timeout")) _
            (HostError "Exception: Request timeout") _ _ _).
  - by vm_compute.
  - by apply try_block_fetch_fails.
  - left. by vm_compute.
Defined.

(** [SCOPEGREEN("steel", , , , , "many")]: no [num_matches] in the query,
    and the explanation alone in the row. *)
Lemma unparsable_numMatches_witness :
  let a := call (VStr "steel") VUndefined (VStr "many") in
  let w := world ∅ (Response 200 two_matches_text) in
  truthy (VStr "many") = true
  ∧ parseInt "many" = None
  ∧ answers a w two_matches
  ∧ success_body two_matches [VObj alloy; VObj steel]
  ∧ numMatches (normalize a) = None
  ∧ ("num_matches" ∉ fst <$> queryFields (normalize a))
  ∧ queryParams (normalize a)
    = "item_name=steel&metric=Carbon%20footprint&mode=lite&web_mode=false&not_english=false"
  ∧ SCOPEGREEN a w = Ok (VArr [VArr [VStr "Closest products"]]).
Proof.
  assert (Hans : answers (call (VStr "steel") VUndefined (VStr "many"))
                   (world ∅ (Response 200 two_matches_text)) two_matches).
  { split; [by vm_compute|]. exists 200, two_matches_text.
    split; [reflexivity|by vm_compute]. }
  assert (Hbody : success_body two_matches [VObj alloy; VObj steel]).
  { by split_and!. }
  assert (Ht : truthy (VStr "many") = true) by done.
  assert (Hp : parseInt "many" = None) by (by vm_compute).
  destruct (unparsable_numMatches_gives_one_cell
              (call (VStr "steel") VUndefined (VStr "many"))
              (world ∅ (Response 200 two_matches_text))
              two_matches [VObj alloy; VObj steel] Ht Hp)
    as (Hn & Hq & Hrow).
  split_and!; [done|done|done|done|exact Hn|exact Hq|by vm_compute|].
  rewrite (Hrow Hans Hbody). by vm_compute.
Defined.

(** *** The request *)

(** [SCOPEGREEN("", 0, , , , false)]: every argument falsy. *)
Lemma omitted_arguments_witness :
  all_omitted (call (VStr "") (VNum (of_Z 0)) (VBool false))
  ∧ cacheKey (normalize (call (VStr "") (VNum (of_Z 0)) (VBool false)))
    = "LCA____Carbon footprint__1_lite_false_"
  ∧ queryParams (normalize (call (VStr "") (VNum (of_Z 0)) (VBool false)))
    = "item_name=&metric=Carbon%20footprint&mode=lite&web_mode=false&num_matches=1&not_english=false".
Proof.
  assert (Ho : all_omitted (call (VStr "") (VNum (of_Z 0)) (VBool false)))
    by (by split_and!).
  split_and!; [done| |by vm_compute].
  exact (proj1 (proj2 (omitted_arguments_take_the_defaults _ Ho))).
Defined.

(** *** The responses that are not a success *)

(** Status 400 with an error and a match: the error is reported. *)
Lemma api_error_witness :
  responds steel_call (answering 400 error_with_matches_text) 400 error_with_matches_text
  ∧ JSON_parse error_with_matches_text = Some (VObj error_with_matches)
  ∧ SCOPEGREEN steel_call (answering 400 error_with_matches_text)
    = Ok (VArr [VArr [VStr "400: Bad year"]]).
Proof.
  assert (Hresp : responds steel_call (answering 400 error_with_matches_text)
                    400 error_with_matches_text)
    by (split; [by vm_compute|reflexivity]).
  assert (Hparse : JSON_parse error_with_matches_text = Some (VObj error_with_matches))
    by (by vm_compute).
  split_and!; [done|done|]. unfold SCOPEGREEN.
  rewrite (api_error_is_reported_first _ _ _ _ error_with_matches
             (VNum (of_Z 400)) (VStr "Bad year") Hresp Hparse
             eq_refl eq_refl eq_refl eq_refl eq_refl
             (or_introl (ltac:(done) : 400 ≠ 429))).
  by vm_compute.
Defined.

(** Status 200 with a message of no match and a match: the message. *)
Lemma no_match_witness :
  responds steel_call (answering 200 no_match_with_matches_text)
    200 no_match_with_matches_text
  ∧ JSON_parse no_match_with_matches_text = Some (VObj no_match_with_matches)
  ∧ SCOPEGREEN steel_call (answering 200 no_match_with_matches_text)
    = Ok (VArr [VArr [VStr "No good match was found for unobtainium"]]).
Proof.
  assert (Hresp : responds steel_call (answering 200 no_match_with_matches_text)
                    200 no_match_with_matches_text)
    by (split; [by vm_compute|reflexivity]).
  assert (Hparse : JSON_parse no_match_with_matches_text
                   = Some (VObj no_match_with_matches))
    by (by vm_compute).
  assert (Hinc : includes "No good match was found"
                   "No good match was found for unobtainium" = true)
    by (by vm_compute).
  split_and!; [done|done|]. unfold SCOPEGREEN.
  by rewrite (no_match_message_comes_before_matches _ _ _ _ no_match_with_matches
                "No good match was found for unobtainium"
                Hresp Hparse eq_refl eq_refl Hinc).
Defined.

(** An empty array of matches and a message: the message, prefixed. *)
Lemma body_without_matches_witness :
  responds steel_call (answering 200 empty_matches_text) 200 empty_matches_text
  ∧ JSON_parse empty_matches_text = Some (VObj empty_matches)
  ∧ SCOPEGREEN steel_call (answering 200 empty_matches_text)
    = Ok (VArr [VArr [VStr "Message from API: Quota low"]]).
Proof.
  assert (Hresp : responds steel_call (answering 200 empty_matches_text)
                    200 empty_matches_text)
    by (split; [by vm_compute|reflexivity]).
  assert (Hparse : JSON_parse empty_matches_text = Some (VObj empty_matches))
    by (by vm_compute).
  split_and!; [done|done|]. unfold SCOPEGREEN.
  by rewrite (body_without_matches_gives_message_or_raw_text _ _ _ _ empty_matches
                Hresp Hparse eq_refl eq_refl (or_intror eq_refl) eq_refl).
Defined.

(** The body [null] under status 200. *)
Lemma json_body_that_is_no_object_witness :
  responds steel_call (answering 200 "null") 200 "null"
  ∧ JSON_parse "null" = Some VNull
  ∧ SCOPEGREEN steel_call (answering 200 "null") = Ok (VArr [VArr [VStr "null"]])
  ∧ cache (SCOPEGREEN_run steel_call (answering 200 "null")).2 = cache (answering 200 "null").
Proof.
  assert (Hresp : responds steel_call (answering 200 "null") 200 "null")
    by (split; [by vm_compute|reflexivity]).
  assert (Hparse : JSON_parse "null" = Some VNull) by (by vm_compute).
  split_and!; [done|done|..];
    apply (json_body_that_is_no_object_is_returned_verbatim _ _ 200 "null" VNull);
    done.
Defined.

(** Status 429 with a message. *)
Lemma rate_limit_message_witness :
  responds steel_call (answering 429 slow_down_text) 429 slow_down_text
  ∧ JSON_parse slow_down_text = Some (VObj slow_down)
  ∧ SCOPEGREEN steel_call (answering 429 slow_down_text)
    = Ok (VArr [VArr [VStr "Rate limit exceeded: slow down"]]).
Proof.
  assert (Hresp : responds steel_call (answering 429 slow_down_text) 429 slow_down_text)
    by (split; [by vm_compute|reflexivity]).
  assert (Hparse : JSON_parse slow_down_text = Some (VObj slow_down))
    by (by vm_compute).
  split_and!; [done|done|]. unfold SCOPEGREEN.
  by rewrite (rate_limit_message_is_reported _ _ _ slow_down (VStr "slow down")
                Hresp Hparse eq_refl eq_refl eq_refl eq_refl).
Defined.

(** Status 429 with a body that is not JSON, and with the body [null]. *)
Lemma rate_limit_with_unusable_body_witness :
  JSON_parse "Too Many Requests" = None
  ∧ SCOPEGREEN steel_call (answering 429 "Too Many Requests")
    = Ok (VArr [VArr [VStr "Rate limit exceeded: Please try again later."]])
  ∧ SCOPEGREEN steel_call (answering 429 "null")
    = Ok (VArr [VArr [VStr "Rate limit exceeded: Please try again later."]]).
Proof.
  assert (Hresp : ∀ text, responds steel_call (answering 429 text) 429 text)
    by (intros text; split; [by vm_compute|reflexivity]).
  assert (Hnone : JSON_parse "Too Many Requests" = None) by (by vm_compute).
  assert (Hnull : JSON_parse "null" = Some VNull) by (by vm_compute).
  split_and!; [done|..]; unfold SCOPEGREEN.
  - by rewrite (rate_limit_with_unusable_body_gives_generic_message _ _ _
                  (Hresp _) (or_introl Hnone)).
  - by rewrite (rate_limit_with_unusable_body_gives_generic_message _ _ _
                  (Hresp _) (or_intror Hnull)).
Defined.

(** A fetch that fails with a text that has [Timeout] with a capital:
    the test of line 200 is case-sensitive, and the text comes back. *)
Lemma fetch_failure_witness :
  includes "timeout" "Exception: Timeout: example.org" = false
  ∧ includes "execution time" "Exception: Timeout: example.org" = false
  ∧ SCOPEGREEN steel_call (world ∅ (FetchFails "Exception: Timeout: example.org"))
    = Ok (VArr [VArr [VStr "Error: Exception: Timeout: example.org"]]).
Proof.
  assert (Ht : includes "timeout" "Exception: Timeout: example.org" = false)
    by (by vm_compute).
  assert (He : includes "execution time" "Exception: Timeout: example.org" = false)
    by (by vm_compute).
  assert (Hc : cached (cacheKey (normalize steel_call))
                 (world ∅ (FetchFails "Exception: Timeout: example.org")) = None)
    by (by vm_compute).
  split_and!; [done|done|]. unfold SCOPEGREEN.
  by rewrite (fetch_failure_becomes_an_error_row _ _ _ Hc eq_refl Ht He).
Defined.

(** *** The loop over the ranks *)

(** A match of rank 1 without [metric]: the TypeError, as a row. *)
Lemma match_without_metric_witness :
  answers steel_call (answering 200 no_metric_text) no_metric
  ∧ numMatches (normalize steel_call) = Some 1
  ∧ SCOPEGREEN steel_call (answering 200 no_metric_text)
    = Ok (VArr [VArr [VStr
        "Error: TypeError: Cannot read properties of undefined (reading 'value')"]])
  ∧ cache (SCOPEGREEN_run steel_call (answering 200 no_metric_text)).2 = ∅.
Proof.
  assert (Hans : answers steel_call (answering 200 no_metric_text) no_metric).
  { split; [by vm_compute|]. exists 200, no_metric_text.
    split; [reflexivity|by vm_compute]. }
  assert (Hn : numMatches (normalize steel_call) = Some 1) by (by vm_compute).
  assert (Hbody : success_body no_metric [VObj steel_without_metric])
    by (by split_and!).
  assert (Hcaught : caught (TypeError (ReadOfNullish
                              (own_property steel_without_metric "metric") "value"))
                    = (GenericFailure, VArr [VArr [VStr
        "Error: TypeError: Cannot read properties of undefined (reading 'value')"]]))
    by (by vm_compute).
  split_and!; [done|done|..]; unfold SCOPEGREEN;
    rewrite (match_without_metric_gives_an_error_row _ _ no_metric steel_without_metric [] 1
               Hans Hbody eq_refl eq_refl (or_introl eq_refl) Hn
               (ltac:(lia) : 1 ≤ 1)).
  - by rewrite Hcaught.
  - reflexivity.
Defined.

(** One match asked for; the array holds a match of rank 1, then [null]
    and a text. *)
Lemma one_match_asked_witness :
  answers steel_call (answering 200 steel_and_junk_text) steel_and_junk
  ∧ ranked 1 steel steel_metric
  ∧ numMatches (normalize steel_call) = Some 1
  ∧ SCOPEGREEN steel_call (answering 200 steel_and_junk_text) =
    Ok (VArr [VArr [
      VStr "Match 1: Steel"; VNum (Dec 25 (-1)); VStr "kg CO2e/kg";
      VNum (of_Z 2020); VStr ""; VStr ""; VStr ""; VStr "";
      VStr "Closest products" ]]).
Proof.
  assert (Hans : answers steel_call (answering 200 steel_and_junk_text) steel_and_junk).
  { split; [by vm_compute|]. exists 200, steel_and_junk_text.
    split; [reflexivity|by vm_compute]. }
  assert (Hbody : success_body steel_and_junk [VObj steel; VNull; VStr "junk"])
    by (by split_and!).
  assert (H1 : ranked 1 steel steel_metric) by (by split).
  assert (Hn : numMatches (normalize steel_call) = Some 1) by (by vm_compute).
  split_and!; [done..|].
  rewrite (one_match_asked_gives_first_of_rank_one _ _ _ _ _ _ Hans Hbody H1
             eq_refl Hn).
  by vm_compute.
Defined.

(** Three matches asked for, two present, ranked 1 and 3: the loop
    visits the ranks 1 and 2 and shows rank 1. *)
Lemma row_lists_the_ranks_witness :
  let a := call (VStr "steel") VUndefined (VNum (of_Z 3)) in
  let w := answering 200 ranks_1_and_3_text in
  answers a w ranks_1_and_3
  ∧ Forall well_formed [VObj steel_1; VObj iron_3]
  ∧ ranks_visited 3 [VObj steel_1; VObj iron_3] = [1; 2]
  ∧ ranks_shown 3 [VObj steel_1; VObj iron_3] = [1]
  ∧ SCOPEGREEN a w =
    Ok (VArr [VArr [
      VStr "Match 1: Steel"; VNum (Dec 25 (-1)); VStr "kg CO2e/kg";
      VStr ""; VStr ""; VStr ""; VStr ""; VStr "";
      VStr "Closest products" ]]).
Proof.
  assert (Hans : answers (call (VStr "steel") VUndefined (VNum (of_Z 3)))
                   (answering 200 ranks_1_and_3_text) ranks_1_and_3).
  { split; [by vm_compute|]. exists 200, ranks_1_and_3_text.
    split; [reflexivity|by vm_compute]. }
  assert (Hbody : success_body ranks_1_and_3 [VObj steel_1; VObj iron_3])
    by (by split_and!).
  assert (Hwf : Forall well_formed [VObj steel_1; VObj iron_3]).
  { repeat constructor; eexists _, _; split_and!; reflexivity. }
  assert (Hn : numMatches (normalize (call (VStr "steel") VUndefined (VNum (of_Z 3))))
               = Some 3) by (by vm_compute).
  split_and!; [done|done|by vm_compute|by vm_compute|].
  rewrite (proj1 (row_lists_the_ranks_in_order _ _ _ _ _ Hans Hbody Hwf Hn)).
  by vm_compute.
Defined.

(** Two matches asked for and shown: 8 * 2 + 1 cells. *)
Lemma success_row_witness :
  let a := call (VStr "steel") VUndefined (VNum (of_Z 2)) in
  let w := answering 200 two_matches_text in
  (SCOPEGREEN_run a w).1 = Ok (Success, two_matches_table)
  ∧ ∃ row k, two_matches_table = VArr [VArr row] ∧ length row = (8 * k + 1)%nat ∧
      match numMatches (normalize a) with
      | Some z => Z.of_nat k ≤ Z.max 0 z
      | None => k = 0%nat
      end.
Proof.
  assert (Hrun : (SCOPEGREEN_run (call (VStr "steel") VUndefined (VNum (of_Z 2)))
                    (answering 200 two_matches_text)).1
                 = Ok (Success, two_matches_table)) by (by vm_compute).
  split; [done|].
  exact (success_row_has_at_most_numMatches_blocks _ _ _ Hrun).
Defined.

(** *** Calls and the cache *)

(** The same call in two worlds that differ in another entry of the
    cache, in the events so far and in whether [cache.put] works. *)
Lemma result_depends_on_own_entry_witness :
  let a := call (VStr "steel") VUndefined (VNum (of_Z 2)) in
  let w1 := answering 200 two_matches_text in
  let w2 := {| cache := {[ "LCA_iron___Carbon footprint__1_lite_false_" := ("[[1]]", 120) ]};
               network := λ _, Response 200 two_matches_text;
               put_fault := Some "Exception: Argument too large";
               trace := [CacheGet "LCA_iron___Carbon footprint__1_lite_false_"] |} in
  (SCOPEGREEN_run a w1).1 = (SCOPEGREEN_run a w2).1
  ∧ (SCOPEGREEN_run a w2).1 = Ok (Success, two_matches_table).
Proof.
  split; [|by vm_compute].
  apply result_depends_on_own_entry_and_answer; [by vm_compute|reflexivity].
Defined.

(** A successful call, then the same call with the network down; and a
    successful call for the item [a_], then a call for the item [a] of
    the year [_], whose key is the same. *)
Lemma call_with_the_same_key_witness :
  let a := call (VStr "steel") VUndefined (VNum (of_Z 2)) in
  let w := answering 200 two_matches_text in
  let w2 := world {[ steel_key := (two_matches_table_text, 120) ]}
              (FetchFails "unreachable") in
  (SCOPEGREEN_run a w).1 = Ok (Success, two_matches_table)
  ∧ JSON_stringify two_matches_table = two_matches_table_text
  ∧ JSON_parse (JSON_stringify two_matches_table) = Some two_matches_table
  ∧ SCOPEGREEN_run a w2 =
    (Ok (CacheHit, two_matches_table), record (CacheGet (cacheKey (normalize a))) w2)
  ∧ fullUrl (normalize (call (VStr "a") (VStr "_") (VNum (of_Z 2))))
    ≠ fullUrl (normalize (call (VStr "a_") VUndefined (VNum (of_Z 2))))
  ∧ (SCOPEGREEN_run (call (VStr "a") (VStr "_") (VNum (of_Z 2)))
       (SCOPEGREEN_run (call (VStr "a_") VUndefined (VNum (of_Z 2))) w).2).1
    = Ok (CacheHit, two_matches_table).
Proof.
  assert (Hrun : (SCOPEGREEN_run (call (VStr "steel") VUndefined (VNum (of_Z 2)))
                    (answering 200 two_matches_text)).1
                 = Ok (Success, two_matches_table)) by (by vm_compute).
  assert (Hrun' : (SCOPEGREEN_run (call (VStr "a_") VUndefined (VNum (of_Z 2)))
                     (answering 200 two_matches_text)).1
                  = Ok (Success, two_matches_table)) by (by vm_compute).
  assert (Hround : JSON_parse (JSON_stringify two_matches_table)
                   = Some two_matches_table) by (by vm_compute).
  assert (Hkey : cacheKey (normalize (call (VStr "a") (VStr "_") (VNum (of_Z 2))))
                 = cacheKey (normalize (call (VStr "a_") VUndefined (VNum (of_Z 2)))))
    by (by vm_compute).
  split_and!; [done|by vm_compute|done|..].
  - apply (call_with_the_same_key_is_served_from_the_cache _ _
             (answering 200 two_matches_text));
      [done|reflexivity|done|reflexivity|by vm_compute].
  - vm_compute. discriminate.
  - by rewrite (call_with_the_same_key_is_served_from_the_cache _ _
                  (answering 200 two_matches_text) _ _
                  Hrun' eq_refl Hround Hkey eq_refl).
Defined.

(** The same body of matches under status 200 and under status 500. *)
Lemma status_is_ignored_witness :
  let a := call (VStr "steel") VUndefined (VNum (of_Z 2)) in
  (SCOPEGREEN_run a (answering 200 two_matches_text)).1
    = (SCOPEGREEN_run a (answering 500 two_matches_text)).1
  ∧ (SCOPEGREEN_run a (answering 500 two_matches_text)).1
    = Ok (Success, two_matches_table).
Proof.
  split; [|by vm_compute].
  apply (status_other_than_429_is_ignored _ _ _ 200 500 two_matches_text);
    [split; [by vm_compute|reflexivity]|split; [by vm_compute|reflexivity]|done|done].
Defined.

(** A gateway error page: one cell, a text. *)
Lemma failure_row_witness :
  let a := call (VStr "steel") VUndefined (VNum (of_Z 2)) in
  let w := answering 502 "<html>Bad Gateway</html>" in
  (SCOPEGREEN_run a w).1 = Ok (Malformed, VArr [VArr [VStr "<html>Bad Gateway</html>"]])
  ∧ ∃ s, VArr [VArr [VStr "<html>Bad Gateway</html>"]] = VArr [VArr [VStr s]].
Proof.
  assert (Hrun : (SCOPEGREEN_run (call (VStr "steel") VUndefined (VNum (of_Z 2)))
                    (answering 502 "<html>Bad Gateway</html>")).1
                 = Ok (Malformed, VArr [VArr [VStr "<html>Bad Gateway</html>"]]))
    by (by vm_compute).
  split; [done|].
  exact (failure_rows_are_one_text_cell _ _ _ _ Hrun
           (ltac:(done) : Malformed ≠ CacheHit) (ltac:(done) : Malformed ≠ Success)).
Defined.

(** [SCOPEGREEN("steel", , , , , "0")]: the text [0] is truthy and parses
    to 0, the number 0 is falsy and gives the default. *)
Lemma nonpositive_numMatches_witness :
  let a := call (VStr "steel") VUndefined (VStr "0") in
  let w := answering 200 two_matches_text in
  answers a w two_matches
  ∧ numMatches (normalize a) = Some 0
  ∧ numMatches (normalize (call (VStr "steel") VUndefined (VNum (of_Z 0)))) = Some 1
  ∧ SCOPEGREEN a w = Ok (VArr [VArr [VStr "Closest products"]]).
Proof.
  assert (Hans : answers (call (VStr "steel") VUndefined (VStr "0"))
                   (answering 200 two_matches_text) two_matches).
  { split; [by vm_compute|]. exists 200, two_matches_text.
    split; [reflexivity|by vm_compute]. }
  assert (Hbody : success_body two_matches [VObj alloy; VObj steel])
    by (by split_and!).
  assert (Hn : numMatches (normalize (call (VStr "steel") VUndefined (VStr "0")))
               = Some 0) by (by vm_compute).
  split_and!; [done|done|by vm_compute|].
  by rewrite (nonpositive_numMatches_gives_one_cell _ _ _ _ 0 Hans Hbody Hn
                (ltac:(lia) : 0 ≤ 0)).
Defined.

(** *** Values without a text *)

(** A [matched_name] that is an object with a key [toString] of its own:
    line 144 raises, the call returns the error as a row and caches
    nothing, although both matches have their rank and their metric. *)
Example name_without_text_is_an_error :
  let a := call (VStr "steel") VUndefined (VNum (of_Z 2)) in
  let w := answering 200 name_without_text_text in
  (SCOPEGREEN_run a w).1
  = Ok (GenericFailure,
        VArr [VArr [VStr "Error: TypeError: Cannot convert object to primitive value"]])
  ∧ cache (SCOPEGREEN_run a w).2 !! cacheKey (normalize a) = None.
Proof. split; by vm_compute. Qed.

(** The same for [error.code] (line 125) and for [message] (line 193);
    under status 429 the error of [error.message] (line 104) is taken by
    the inner [catch]. *)
Example error_code_without_text_is_an_error :
  (SCOPEGREEN_run steel_call
     (answering 400 (json "{'error':{'code':{'toString':1},'message':'x'}}"))).1
  = Ok (GenericFailure,
        VArr [VArr [VStr "Error: TypeError: Cannot convert object to primitive value"]]).
Proof. by vm_compute. Qed.

Example message_without_text_is_an_error :
  (SCOPEGREEN_run steel_call (answering 200 (json "{'message':{'toString':1}}"))).1
  = Ok (GenericFailure,
        VArr [VArr [VStr "Error: TypeError: Cannot convert object to primitive value"]]).
Proof. by vm_compute. Qed.

Example rate_limit_message_without_text_gives_generic_message :
  (SCOPEGREEN_run steel_call
     (answering 429 (json "{'error':{'message':{'toString':1}}}"))).1
  = Ok (RateLimited, VArr [VArr [VStr "Rate limit exceeded: Please try again later."]]).
Proof. by vm_compute. Qed.

(** A [length] without a number: the test of line 135 raises. *)
Example length_without_number_is_an_error :
  (SCOPEGREEN_run steel_call
     (answering 200 (json "{'matches':{'length':{'toString':1}}}"))).1
  = Ok (GenericFailure,
        VArr [VArr [VStr "Error: TypeError: Cannot convert object to primitive value"]]).
Proof. by vm_compute. Qed.
